(** * Geometry extraction of GenerateFigureFromFile, embedded in Rocq

    The development follows [src/parsing.py] ([parse_geom_from_log],
    [parse_geom_from_xyz], [parse_geom_from_com]) and [src/main.py]
    ([make_molecule_from_file]).

    Text is modelled as lists of 8-bit characters, read as the code points
    0..255; a Python [str] method is embedded by the function of the same
    name in module [Py], an exception by a constructor of [exn]. *)

From Stdlib Require Import String Ascii List Bool Arith ZArith QArith Lia.
From Stdlib Require Import Permutation Sorted DecimalString.
Import ListNotations.

Set Implicit Arguments.
Close Scope Q_scope.
Open Scope nat_scope.

(** ** Exceptions and results *)

Inductive exn : Type :=
| IndexError
| ValueError
| KeyError
| OSError.

Inductive result (A : Type) : Type :=
| Ok (a : A)
| Raise (e : exn).

Arguments Ok {A} a.
Arguments Raise {A} e.

Definition bind {A B : Type} (r : result A) (k : A -> result B) : result B :=
  match r with
  | Ok a => k a
  | Raise e => Raise e
  end.

Notation "x <- r ;; k" := (bind r (fun x => k))
  (at level 61, r at next level, right associativity).

Definition is_ok {A : Type} (r : result A) : bool :=
  match r with Ok _ => true | Raise _ => false end.

(** ** Python text primitives *)

Definition str : Type := list ascii.

(** A literal. *)
Definition lit (x : string) : str := list_ascii_of_string x.

Module Py.

Definition code (c : ascii) : nat := nat_of_ascii c.

Definition in_range (lo hi : nat) (c : ascii) : bool :=
  (lo <=? code c)%nat && (code c <=? hi)%nat.

Definition space : ascii := " "%char.
Definition newline : ascii := "010"%char.
Definition backslash : ascii := "\"%char.
Definition comma : ascii := ","%char.
Definition dot : ascii := "."%char.

(** [str.isspace] on one character, for the code points below 256:
    TAB..CR, FS..US, space, NEL and NBSP. *)
Definition isspace (c : ascii) : bool :=
  in_range 9 13 c || in_range 28 32 c
  || (code c =? 133)%nat || (code c =? 160)%nat.

Definition isdigit (c : ascii) : bool := in_range 48 57 c.

Definition isalpha_ascii (c : ascii) : bool :=
  in_range 65 90 c || in_range 97 122 c.

Fixpoint lstrip_by (p : ascii -> bool) (s : str) : str :=
  match s with
  | [] => []
  | c :: s' => if p c then lstrip_by p s' else s
  end.

Definition rstrip_by (p : ascii -> bool) (s : str) : str :=
  rev (lstrip_by p (rev s)).

Definition strip_by (p : ascii -> bool) (s : str) : str :=
  rstrip_by p (lstrip_by p s).

(** [s.strip()] *)
Definition strip (s : str) : str := strip_by isspace s.

(** [s[i:j]] for [0 <= i <= j]; the slice is cut at the end of [s]. *)
Definition slice (i j : nat) (s : str) : str := firstn (j - i) (skipn i s).

(** [s[i:]] *)
Definition slice_from (i : nat) (s : str) : str := skipn i s.

(** [s.ljust(w)] and [s.rjust(w)], the fill character being the space. *)
Definition ljust (w : nat) (s : str) : str :=
  s ++ repeat space (w - length s).

Definition rjust (w : nat) (s : str) : str :=
  repeat space (w - length s) ++ s.

(** [c in s] for a one-character [c]. *)
Definition contains (c : ascii) (s : str) : bool :=
  existsb (Ascii.eqb c) s.

(** [s.replace(c, "")] for a one-character [c]. *)
Definition remove (c : ascii) (s : str) : str :=
  filter (fun d => negb (Ascii.eqb c d)) s.

Fixpoint startswith (p s : str) : bool :=
  match p, s with
  | [], _ => true
  | _ :: _, [] => false
  | a :: p', b :: s' => Ascii.eqb a b && startswith p' s'
  end.

(** [s.split(sep)] for a non-empty [sep]: the text is cut at the
    occurrences of [sep] found from left to right, an occurrence starting
    only after the end of the previous one.  [skip] counts the characters
    of the separator just found that are still to be passed. *)
Fixpoint split_from (sep : str) (skip : nat) (s : str) : list str :=
  match s with
  | [] => [[]]
  | c :: s' =>
      match skip with
      | S k => split_from sep k s'
      | O =>
          if startswith sep s
          then [] :: split_from sep (length sep - 1) s'
          else match split_from sep 0 s' with
               | h :: t => (c :: h) :: t
               | [] => [[c]]
               end
      end
  end.

Definition split (sep : str) (s : str) : list str := split_from sep 0 s.

(** [sep.join(xs)] *)
Fixpoint join (sep : str) (xs : list str) : str :=
  match xs with
  | [] => []
  | [x] => x
  | x :: xs' => x ++ sep ++ join sep xs'
  end.

(** [s.index(c)] for a one-character [c]. *)
Fixpoint index (c : ascii) (s : str) : result nat :=
  match s with
  | [] => Raise ValueError
  | d :: s' =>
      if Ascii.eqb c d then Ok O
      else (i <- index c s' ;; Ok (S i))
  end.

(** [xs[i]] *)
Definition getitem {A : Type} (xs : list A) (i : nat) : result A :=
  match nth_error xs i with
  | Some x => Ok x
  | None => Raise IndexError
  end.

End Py.

(** ** [float(s)]

    A finite value is kept as the exact rational the literal denotes, in
    lowest terms.  The rounding to binary64 is a function of that rational,
    so equal rationals stand for equal floats; the overflow of a huge
    literal to infinity and the sign of a zero are not represented. *)

Inductive pyfloat : Type :=
| Fnan
| Finf (neg : bool)
| Ffin (q : Q).

Module Float.

Definition digit_val (c : ascii) : N := N.of_nat (Py.code c - 48).

Fixpoint span_digits (s : str) : str * str :=
  match s with
  | [] => ([], [])
  | c :: s' =>
      if Py.isdigit c
      then let (ds, r) := span_digits s' in (c :: ds, r)
      else ([], s)
  end.

Definition digits_value (ds : str) : N :=
  fold_left (fun acc c => (acc * 10 + digit_val c)%N) ds 0%N.

(** The characters [float] strips: those of C's [isspace], and the two
    non-ASCII spaces below 256, which CPython first turns into spaces. *)
Definition isspace (c : ascii) : bool :=
  Py.in_range 9 13 c || (Py.code c =? 32)%nat
  || (Py.code c =? 133)%nat || (Py.code c =? 160)%nat.

Definition underscore : ascii := "_"%char.

(** An underscore may only stand between two digits. *)
Fixpoint underscores_ok (prev : option ascii) (s : str) : bool :=
  match s with
  | [] => match prev with
          | Some p => negb (Ascii.eqb p underscore)
          | None => true
          end
  | c :: s' =>
      let prev_digit :=
        match prev with Some p => Py.isdigit p | None => false end in
      let prev_under :=
        match prev with Some p => Ascii.eqb p underscore | None => false end in
      (if Ascii.eqb c underscore then prev_digit
       else negb prev_under || Py.isdigit c)
      && underscores_ok (Some c) s'
  end.

Definition lower (c : ascii) : ascii :=
  if Py.in_range 65 90 c then ascii_of_nat (Py.code c + 32) else c.

Definition ieq (s : str) (word : string) : bool :=
  if list_eq_dec ascii_dec (map lower s) (lit word) then true else false.

Definition read_sign (s : str) : bool * str :=
  match s with
  | "-"%char :: r => (true, r)
  | "+"%char :: r => (false, r)
  | _ => (false, s)
  end.

Definition value (neg : bool) (m : N) (e : Z) : Q :=
  Qred ((if neg then -1 else 1) * inject_Z (Z.of_N m) * Qpower 10 e)%Q.

(** The exponent part: [None] when the text is not a whole exponent. *)
Definition read_exponent (s : str) : option Z :=
  match s with
  | [] => Some 0%Z
  | c :: r =>
      if Ascii.eqb (lower c) "e"%char then
        let (eneg, r1) := read_sign r in
        match span_digits r1 with
        | ((_ :: _) as ds, []) =>
            let e := Z.of_N (digits_value ds) in
            Some (if eneg then (- e)%Z else e)
        | _ => None
        end
      else None
  end.

(** A decimal literal without its sign. *)
Definition read_decimal (neg : bool) (s : str) : option pyfloat :=
  let (ints, r1) := span_digits s in
  let (fracs, r2) :=
    match r1 with
    | "."%char :: r => span_digits r
    | _ => ([], r1)
    end in
  match ints ++ fracs with
  | [] => None
  | ds =>
      match read_exponent r2 with
      | Some e =>
          Some (Ffin (value neg (digits_value ds)
                            (e - Z.of_nat (length fracs))))
      | None => None
      end
  end.

(** The stripped text: [inf], [infinity], [nan] in any case, or a decimal
    literal, each after an optional sign. *)
Definition read_number (s : str) : option pyfloat :=
  let (neg, r) := read_sign s in
  if ieq r "inf" || ieq r "infinity" then Some (Finf neg)
  else if ieq r "nan" then Some Fnan
  else read_decimal neg r.

Definition parse (s : str) : option pyfloat :=
  if underscores_ok None s
  then read_number (Py.strip_by isspace (Py.remove underscore s))
  else None.

End Float.

(** [float(s)] *)
Definition float (s : str) : result pyfloat :=
  match Float.parse s with
  | Some f => Ok f
  | None => Raise ValueError
  end.

(** ** The regular expression of [parse_geom_from_com]

    A pattern is a sequence of character classes, each repeated greedily
    between [least] and [most] times, matched with backtracking as [re]
    does: the longest repetition first, one character given back at a
    time. *)

Module Re.

Record item : Type :=
  { chars : ascii -> bool; least : nat; most : option nat }.

Fixpoint greedy (p : ascii -> bool) (most : option nat) (s : str) : nat :=
  match s with
  | [] => 0
  | c :: s' =>
      if p c then
        match most with
        | Some O => 0
        | Some (S m) => S (greedy p (Some m) s')
        | None => S (greedy p None s')
        end
      else 0
  end.

(** Tries [n], [n - 1], ..., [least] repetitions, [k] matching the rest
    of the pattern. *)
Fixpoint backtrack (k : str -> option nat) (least n : nat) (s : str)
  : option nat :=
  if (n <? least)%nat then None
  else match k (skipn n s) with
       | Some m => Some (n + m)%nat
       | None =>
           match n with
           | O => None
           | S n' => backtrack k least n' s
           end
       end.

(** The length of the match of [pat] at the start of [s]. *)
Fixpoint match_at (pat : list item) (s : str) : option nat :=
  match pat with
  | [] => Some 0%nat
  | it :: pat' =>
      backtrack (match_at pat') (least it) (greedy (chars it) (most it) s) s
  end.

(** [re.findall(pat, s)] for a pattern without groups that matches no
    empty text: the matches from left to right, the search resuming at
    the end of each. *)
Fixpoint findall_from (pat : list item) (skip : nat) (s : str) : list str :=
  match s with
  | [] => []
  | _ :: s' =>
      match skip with
      | S k => findall_from pat k s'
      | O =>
          match match_at pat s with
          | Some (S m) => firstn (S m) s :: findall_from pat m s'
          | _ => findall_from pat 0 s'
          end
      end
  end.

Definition findall (pat : list item) (s : str) : list str :=
  findall_from pat 0 s.

End Re.

(** ** [src/parsing.py] *)

(** One row [[name, x, y, z]] of a parser's result. *)
Definition row : Type := (str * pyfloat * pyfloat * pyfloat)%type.

(** What a call leaves behind: the lines it printed and its result. *)
Record run (A : Type) : Type :=
  { printed : list string; outcome : result A }.

Arguments printed {A} r.
Arguments outcome {A} r.

Definition unexpected_format : string :=
  "The file was formatted in an unexpected way. Please send the author a copy of the file you are running.".

(** Lines 158-163 of [parse_geom_from_log], on the list [a]. *)
Definition entry_of_fields (a : list str) : result row :=
  name <- Py.getitem a 0 ;;
  x <- (f <- Py.getitem a 1 ;; float f) ;;
  y <- (f <- Py.getitem a 2 ;; float f) ;;
  z <- (f <- Py.getitem a 3 ;; float f) ;;
  Ok (name, x, y, z).

(** The body of the [try] of [parse_geom_from_log] (lines 157-163). *)
Definition log_entry (entry : str) : result row :=
  let a := Py.split [Py.comma] entry in
  entry_of_fields a.

(** The loop of [parse_geom_from_log] (lines 155-171): only an
    [IndexError] is caught. *)
Fixpoint log_loop (data : list str) (molecule : list row) (out : list string)
  : run (list row) :=
  match data with
  | [] => {| printed := out; outcome := Ok molecule |}
  | entry :: rest =>
      match log_entry entry with
      | Ok new_entry => log_loop rest (molecule ++ [new_entry]) out
      | Raise IndexError => log_loop rest molecule (out ++ [unexpected_format])
      | Raise e => {| printed := out; outcome := Raise e |}
      end
  end.

(** [result_string] of [parse_geom_from_log] (lines 143-148). *)
Definition log_result_string (lines : list str) : str :=
  let result_data := filter (Py.contains Py.backslash) lines in
  fold_left
    (fun result_string line =>
       result_string ++ Py.remove Py.space (Py.remove Py.newline line))
    result_data [].

(** [chunks] of [parse_geom_from_log] (line 151). *)
Definition log_chunks (lines : list str) : list str :=
  Py.split [Py.backslash; Py.backslash] (log_result_string lines).

(** [parse_geom_from_log], on the lines read from the file. *)
Definition parse_geom_from_log (lines : list str) : run (list row) :=
  match Py.getitem (log_chunks lines) 3 with
  | Raise e => {| printed := []; outcome := Raise e |}
  | Ok chunk =>
      let data := skipn 1 (Py.split [Py.backslash] chunk) in
      log_loop data [] []
  end.

(** The body of the loops of [parse_geom_from_xyz] (lines 197-200) and
    [parse_geom_from_com] (lines 245-248): the fixed-column reader. *)
Definition fixed_columns (line : str) : result row :=
  let name := Py.strip (Py.slice 0 2 line) in
  x <- float (Py.slice 2 17 line) ;;
  y <- float (Py.slice 18 32 line) ;;
  z <- float (Py.slice 33 47 line) ;;
  Ok (name, x, y, z).

(** [for line in rows: ...; atoms.append([name, x, y, z])] *)
Fixpoint read_rows (rows : list str) (atoms : list row) : result (list row) :=
  match rows with
  | [] => Ok atoms
  | line :: rest =>
      a <- fixed_columns line ;;
      read_rows rest (atoms ++ [a])
  end.

(** [parse_geom_from_xyz], on the lines read from the file. *)
Definition parse_geom_from_xyz (lines : list str) : result (list row) :=
  read_rows (skipn 2 lines) [].

(** [[-.\d ]] *)
Definition coordinate_char (c : ascii) : bool :=
  Ascii.eqb c "-"%char || Ascii.eqb c Py.dot || Py.isdigit c
  || Ascii.eqb c Py.space.

(** [[A-Za-z]{1,2} +[-.\d ]+] *)
Definition pattern : list Re.item :=
  [ {| Re.chars := Py.isalpha_ascii; Re.least := 1; Re.most := Some 2 |};
    {| Re.chars := Ascii.eqb Py.space; Re.least := 1; Re.most := None |};
    {| Re.chars := coordinate_char; Re.least := 1; Re.most := None |} ].

(** [matches] of [parse_geom_from_com] (line 241). *)
Definition com_matches (lines : list str) : list str :=
  Re.findall pattern (Py.join [Py.newline] lines).

(** [parse_geom_from_com], on the lines read from the file. *)
Definition parse_geom_from_com (lines : list str) : result (list row) :=
  read_rows (com_matches lines) [].

(** ** [src/main.py] *)

(** The classes [Atom] and [Molecule] of the module [classes], as
    [make_molecule_from_file] builds them. *)
Record Atom : Type :=
  { atom_name : str; atom_pos : pyfloat * pyfloat * pyfloat }.

Record Molecule : Type :=
  { molecule_name : str; molecule_atoms : list Atom }.

Definition quiet {A : Type} (r : result A) : run A :=
  {| printed := []; outcome := r |}.

Definition parsing_dict : list (str * (list str -> run (list row))) :=
  [ (lit "log", parse_geom_from_log);
    (lit "xyz", fun lines => quiet (parse_geom_from_xyz lines));
    (lit "com", fun lines => quiet (parse_geom_from_com lines)) ].

(** [d[key]] *)
Fixpoint dict_get {V : Type} (d : list (str * V)) (key : str) : result V :=
  match d with
  | [] => Raise KeyError
  | (k, v) :: d' =>
      if list_eq_dec ascii_dec k key then Ok v else dict_get d' key
  end.

(** The key looked up in [parsing_dict] (line 21): the text after the
    first dot of the path. *)
Definition extension_key (file : str) : result str :=
  i <- Py.index Py.dot file ;;
  Ok (Py.slice_from (i + 1) file).

(** [make_molecule_from_file]; [readlines file] is what
    [open(file, "r+")] and [f.readlines()] give for the path. *)
Definition make_molecule_from_file
    (readlines : str -> result (list str)) (file directory : str)
  : run Molecule :=
  match (key <- extension_key file ;; dict_get parsing_dict key) with
  | Raise e => quiet (Raise e)
  | Ok parser =>
      match readlines file with
      | Raise e => quiet (Raise e)
      | Ok lines =>
          let r := parser lines in
          {| printed := printed r;
             outcome :=
               name_xyz <- outcome r ;;
               let atoms :=
                 map (fun a : row =>
                        match a with
                        | (n, x, y, z) =>
                            {| atom_name := n; atom_pos := (x, y, z) |}
                        end) name_xyz in
               let molecule_name := Py.slice_from (length directory) file in
               Ok {| molecule_name := molecule_name;
                     molecule_atoms := atoms |} |}
      end
  end.

(** ** The claims in the words of the specification

    Each definition below follows a sentence of the specification, to be
    compared with the function of the source. *)

(** The rows of the texts that the fixed-column reader accepts, in order:
    what a parser returns when a rejected text is passed over. *)
Definition rows_read (texts : list str) : list row :=
  flat_map
    (fun t => match fixed_columns t with Ok a => [a] | Raise _ => [] end)
    texts.

Definition reads (t : str) : bool := is_ok (fixed_columns t).

(** A line without a character besides its terminator. *)
Definition empty_line (line : str) : bool :=
  match Py.remove Py.newline line with
  | [] => true
  | _ :: _ => false
  end.

(** Section 4.3 of the specification: the reader is applied to every
    remaining non-empty line. *)
Definition xyz_skipping_empty_lines (lines : list str) : result (list row) :=
  read_rows (filter (fun l => negb (empty_line l)) (skipn 2 lines)) [].

(** The rows of the records that [log_entry] accepts, in order. *)
Definition records_read (data : list str) : list row :=
  flat_map
    (fun e => match log_entry e with Ok a => [a] | Raise _ => [] end)
    data.

(** The comma-separated fields of a record. *)
Definition fields (entry : str) : list str := Py.split [Py.comma] entry.

(** A coordinate field (one of the fields 1 to 3) that is present and is
    not a floating-point literal. *)
Definition bad_coordinate (entry : str) : bool :=
  existsb (fun f => negb (is_ok (float f))) (firstn 3 (skipn 1 (fields entry))).

(** Step 7 of section 4.2: the element is a record symbol,x,y,z separated
    by commas (further fields may follow), x, y and z are floating-point
    literals, and [a] is the row of that symbol and those three numbers. *)
Definition reads_record (entry : str) (a : row) : Prop :=
  exists symbol x y z rest fx fy fz,
    Py.split [Py.comma] entry = symbol :: x :: y :: z :: rest
    /\ float x = Ok fx /\ float y = Ok fy /\ float z = Ok fz
    /\ a = (symbol, fx, fy, fz).

(** Steps 2 and 3 of section 4.2: the lines with a backslash, joined with
    their newlines and spaces removed. *)
Definition archive_text (lines : list str) : str :=
  concat
    (map (fun line => Py.remove Py.space (Py.remove Py.newline line))
         (filter (Py.contains Py.backslash) lines)).

(** The line of the round-trip property of section 8, a pad standing
    after the symbol as well as between the numbers. *)
Definition padded_line (symbol pad x y z : str) : str :=
  Py.ljust 2 symbol ++ pad ++ Py.rjust 15 x ++ pad ++ Py.rjust 14 y ++ pad
    ++ Py.rjust 14 z.

(** A line ended by its newline. *)
Definition ln (x : string) : str := lit x ++ [Py.newline].

(** ** Sample files *)

Definition xyz_three_atoms : list str :=
  [ ln "3"; ln "water";
    ln "O        0.000000       0.000000       0.117300";
    ln "H        0.000000       0.757200      -0.469200";
    ln "H        0.000000      -0.757200      -0.469200" ].

Definition xyz_empty_last_line : list str :=
  [ ln "1"; ln "helium";
    ln "He       0.000000       0.000000       0.000000"; ln "" ].

(** The body of the pattern-tolerance property of section 8. *)
Definition com_route_then_atom : list str :=
  [ ln "# opt freq b3lyp/6-31g"; ln "C    0.000000   0.000000   0.000000" ].

(** The same body, its atom line laid out in the fixed columns. *)
Definition com_route_then_columns : list str :=
  [ ln "# opt freq b3lyp/6-31g";
    ln "C        0.000000       0.000000       0.000000" ].

(** An input deck whose title line holds a candidate match, [le 1]. *)
Definition com_with_title : list str :=
  [ ln "# opt freq b3lyp/6-31g"; ln ""; ln "title 1"; ln ""; ln "0 1";
    ln "C        0.000000       0.000000       0.000000" ].

(** Segment 3 of the chunk-selection property of section 8. *)
Definition geometry_segment : str := lit "0,1\C,0.0,0.0,0.0\H,1.0,0.0,0.0".

(** A log file whose archive block is wrapped over two lines. *)
Definition log_five_segments : list str :=
  [ ln " Normal termination of the optimisation.";
    ln " 1\1\GINC-NODE\FOpt\RB3LYP\6-31G\\#opt\\title\\0,1\C,0.0,0.";
    ln " 0,0.0\H,1.0,0.0,0.0\\Version=ES64L" ].

(** An archive of four segments whose records are an oxygen with a fifth
    field and a hydrogen with a sign, an exponent and a bare fraction. *)
Definition log_other_records : list str :=
  [ ln " 1\1\\#opt\\title\\0,1\O,0.0,0.0,1.2,7\H,-0.5,1e-1,.25" ].

(** An archive with only two segments. *)
Definition log_two_segments : list str := [ ln " 1\1\GINC-NODE\\#opt" ].

(** An archive whose geometry section ends with an empty record and holds
    a record of three fields. *)
Definition log_short_records : list str :=
  [ ln " 1\1\\#opt\\title\\0,1\C,0.0,0.0,0.0\H,1.0,0.0\O,0.0,0.0,1.2\" ].

(** An archive with a record whose z field is not a number. *)
Definition log_bad_number : list str :=
  [ ln " 1\1\\#opt\\title\\0,1\C,0.0,0.0,0.0\H,1.0,0.0,x\\@" ].

(** An archive with a record of two fields whose x field is not a number. *)
Definition log_short_bad_number : list str :=
  [ ln " 1\1\\#opt\\title\\0,1\C,0.0,0.0,0.0\H,x\\@" ].

(** An archive whose geometry section holds the charge and multiplicity
    only. *)
Definition log_no_records : list str :=
  [ ln " 1\1\\#opt\\title\\0,1\\Version=ES64L\\@" ].

(** ** The console

    [input] and [print] are embedded over the lines still to be read from
    the standard input and the texts written so far to the standard output.
    [input] at the end of the input raises [EOFError]. *)

Record console : Type :=
  { stdin : list str; stdout : list str }.

Inductive console_exn : Type :=
| EOFError
| Uncaught (e : exn).

Inductive reply (A : Type) : Type :=
| Reply (a : A)
| Abort (e : console_exn).

Arguments Reply {A} a.
Arguments Abort {A} e.

(** What [print(text)] writes. *)
Definition print_line (text : string) : str := lit text ++ [Py.newline].

(** [x in xs] for a list of texts. *)
Definition mem (x : str) (xs : list str) : bool :=
  existsb (fun y => if list_eq_dec ascii_dec y x then true else false) xs.

(** [xs[i]] for an integer [i], a negative one counting from the end. *)
Definition getitem_int {A : Type} (xs : list A) (i : Z) : result A :=
  if (i <? 0)%Z then
    if (i + Z.of_nat (length xs) <? 0)%Z then Raise IndexError
    else Py.getitem xs (Z.to_nat (i + Z.of_nat (length xs)))
  else Py.getitem xs (Z.to_nat i).

(** ** [int(s)]

    After the spaces around it are passed, the text is an optional sign and
    decimal digits, single underscores allowed between digits.  [limit] is
    the interpreter's bound on the number of digits
    ([sys.get_int_max_str_digits()]), [None] where there is none. *)

Module Int.

Fixpoint digits_ok (prev : option ascii) (s : str) : bool :=
  match s with
  | [] =>
      match prev with
      | Some p => Py.isdigit p
      | None => false
      end
  | c :: s' =>
      (if Ascii.eqb c Float.underscore
       then match prev with Some p => Py.isdigit p | None => false end
       else Py.isdigit c)
      && digits_ok (Some c) s'
  end.

Definition parse (limit : option nat) (s : str) : option Z :=
  let body := Py.strip_by Float.isspace s in
  let (neg, r) := Float.read_sign body in
  if digits_ok None r then
    let ds := Py.remove Float.underscore r in
    let too_long :=
      match limit with
      | Some m => m <? length ds
      | None => false
      end in
    if too_long then None
    else
      let v := Z.of_N (Float.digits_value ds) in
      Some (if neg then (- v)%Z else v)
  else None.

End Int.

(** [int(s)] *)
Definition int (limit : option nat) (s : str) : result Z :=
  match Int.parse limit s with
  | Some v => Ok v
  | None => Raise ValueError
  end.

(** [str(n)] for a natural number. *)
Definition str_of_nat (n : nat) : str :=
  lit (NilEmpty.string_of_uint (Nat.to_uint n)).

(** ** The interactive functions of [src/parsing.py] *)

Definition yes : list str := [lit "y"; lit "Y"; lit "Yes"; lit "1"].
Definition no : list str := [lit "N"; lit "n"; lit "No"; lit "0"].

(** [yes_no] (lines 37-45): [world] is the console at the call. *)
Fixpoint yes_no_loop (prompt : str) (input : list str) (out : list str)
  : console * reply bool :=
  let out' := out ++ [prompt ++ lit " (y/n): "] in
  match input with
  | [] => ({| stdin := []; stdout := out' |}, Abort EOFError)
  | done :: rest =>
      if mem done (yes ++ no)
      then ({| stdin := rest; stdout := out' |}, Reply (mem done yes))
      else yes_no_loop prompt rest out'
  end.

Definition yes_no (prompt : str) (world : console) : console * reply bool :=
  yes_no_loop prompt (stdin world) (stdout world).

Definition select_prompt : str := lit "Select one of the following (ex. 2): ".
Definition not_an_integer : str := print_line "The selection must be an integer.".
Definition not_an_option : str :=
  print_line "The selection is not an option in the list.".

(** The lines printed for the choices (lines 71-72). *)
Fixpoint menu (n : nat) (choices : list str) : list str :=
  match choices with
  | [] => []
  | item :: rest =>
      (str_of_nat (n + 1) ++ lit ") " ++ item ++ [Py.newline])
        :: menu (S n) rest
  end.

(** The loop of [make_choice_list] (lines 75-87): the accepted selection
    and the item chosen. *)
Fixpoint select_loop (limit : option nat) (choices : list str)
    (input : list str) (out : list str) : console * reply (Z * str) :=
  let out' := out ++ [select_prompt] in
  match input with
  | [] => ({| stdin := []; stdout := out' |}, Abort EOFError)
  | answer :: rest =>
      match int limit answer with
      | Raise _ => select_loop limit choices rest (out' ++ [not_an_integer])
      | Ok selection =>
          if (1 <=? selection)%Z && (selection <=? Z.of_nat (length choices))%Z
          then
            match getitem_int choices (selection - 1) with
            | Ok chosen =>
                ({| stdin := rest; stdout := out' |},
                 Reply (selection, chosen))
            | Raise e =>
                ({| stdin := rest; stdout := out' |}, Abort (Uncaught e))
            end
          else select_loop limit choices rest (out' ++ [not_an_option])
      end
  end.

(** [make_choice_list]: the item chosen, or its index when [ret_num]. *)
Definition make_choice_list (limit : option nat) (choices : list str)
    (prompt : str) (ret_num : bool) (world : console)
  : console * reply (str + Z) :=
  let out := stdout world ++ [prompt ++ [Py.newline]] ++ menu 0 choices in
  match select_loop limit choices (stdin world) out with
  | (w, Reply (selection, chosen)) =>
      (w, Reply (if ret_num then inr (selection - 1)%Z else inl chosen))
  | (w, Abort e) => (w, Abort e)
  end.

(** ** The loops of [main] in [src/main.py] *)

(** [files.sort(key=lambda x: len(x))]: the stable sort by length. *)
Fixpoint insert_by_length (x : str) (xs : list str) : list str :=
  match xs with
  | [] => [x]
  | y :: ys =>
      if length x <=? length y then x :: xs
      else y :: insert_by_length x ys
  end.

Definition sort_by_length (xs : list str) : list str :=
  fold_right insert_by_length [] xs.

(** Lines 48-49: the paths found for each extension of [parsing_dict], in
    the order of its keys; [glob] is the function of the module [glob]. *)
Definition glob_all (glob : str -> list str) (directory : str) : list str :=
  flat_map (fun entry => glob (directory ++ lit "/*." ++ fst entry))
           parsing_dict.

(** Lines 40-43. *)
Definition banner : list str :=
  [ Py.newline :: print_line "Enter the directory which contains one of the following files.";
    print_line "Valid file types:" ]
  ++ map (fun entry => "009"%char :: "."%char :: fst entry ++ [Py.newline])
         parsing_dict.

Definition no_valid_files : str :=
  Py.newline :: print_line "No valid files found in the selected directory.".

(** The loop [while not files] of [main] (lines 38-55): the files found
    and the directory entered. *)
Fixpoint choose_directory (glob : str -> list str) (input : list str)
    (out : list str) : console * reply (list str * str) :=
  let out' := out ++ banner ++ [lit "Directory: "] in
  match input with
  | [] => ({| stdin := []; stdout := out' |}, Abort EOFError)
  | directory :: rest =>
      match sort_by_length (glob_all glob directory) with
      | [] => choose_directory glob rest (out' ++ [no_valid_files])
      | files => ({| stdin := rest; stdout := out' |}, Reply (files, directory))
      end
  end.

(** What the last loop of [main] leaves behind: the molecules handed to
    [save_structure], of the module [functions], in order, the lines
    printed and the result. *)
Record batch : Type :=
  { saved : list Molecule; batch_printed : list string;
    batch_outcome : result unit }.

(** The loop [for file in files] of [main] (lines 71-73). *)
Fixpoint save_all (readlines : str -> result (list str)) (directory : str)
    (files : list str) (done : list Molecule) (out : list string) : batch :=
  match files with
  | [] => {| saved := done; batch_printed := out; batch_outcome := Ok tt |}
  | file :: rest =>
      let r := make_molecule_from_file readlines file directory in
      match outcome r with
      | Ok molecule =>
          save_all readlines directory rest (done ++ [molecule])
                   (out ++ printed r)
      | Raise e =>
          {| saved := done; batch_printed := out ++ printed r;
             batch_outcome := Raise e |}
      end
  end.

(** ** Declarative readings used in the properties *)

Module ReSpec.

(** A text matches a pattern when it is cut into one block per item, each
    block made of characters of the item's class and of a length between
    [least] and [most]. *)
Inductive blocks : list Re.item -> str -> Prop :=
| blocks_nil : blocks [] []
| blocks_cons (it : Re.item) (pat : list Re.item) (b r : str) :
    forallb (Re.chars it) b = true ->
    Re.least it <= length b ->
    match Re.most it with Some m => length b <= m | None => True end ->
    blocks pat r ->
    blocks (it :: pat) (b ++ r).

End ReSpec.

(** A record of the geometry section, as four texts. *)
Definition record : Type := (str * str * str * str)%type.

Definition record_text (r : record) : str :=
  match r with
  | (symbol, x, y, z) => Py.join [Py.comma] [symbol; x; y; z]
  end.

Definition record_row (r : record) : result row :=
  match r with
  | (symbol, x, y, z) =>
      fx <- float x ;; fy <- float y ;; fz <- float z ;;
      Ok (symbol, fx, fy, fz)
  end.

(** No field of the record holds a comma or a backslash. *)
Definition plain_record (r : record) : bool :=
  match r with
  | (symbol, x, y, z) =>
      forallb
        (fun f => negb (Py.contains Py.comma f)
                  && negb (Py.contains Py.backslash f))
        [symbol; x; y; z]
  end.

(** The name [a[0]] of a row. *)
Definition row_name (a : row) : str := fst (fst (fst a)).

(** [Atom(a[0], (a[1], a[2], a[3]))] *)
Definition atom_of_row (a : row) : Atom :=
  match a with
  | (n, x, y, z) => {| atom_name := n; atom_pos := (x, y, z) |}
  end.

(** The molecules of the files that [make_molecule_from_file] accepts. *)
Definition molecules_of (readlines : str -> result (list str))
    (directory : str) (files : list str) : list Molecule :=
  flat_map
    (fun file =>
       match outcome (make_molecule_from_file readlines file directory) with
       | Ok molecule => [molecule]
       | Raise _ => []
       end)
    files.

(** What the loop [while not files] writes for a directory without a file
    to parse. *)
Definition rejected_directory : list str :=
  banner ++ [lit "Directory: "; no_valid_files].

(** The order of [files.sort(key=lambda x: len(x))]. *)
Definition by_length (a b : str) : Prop := length a <= length b.

(** The selection that [make_choice_list] accepts in an answer: an
    integer from 1 to the number of choices. *)
Definition accepted (limit : option nat) (choices : list str) (answer : str)
  : option Z :=
  match int limit answer with
  | Ok selection =>
      if (1 <=? selection)%Z && (selection <=? Z.of_nat (length choices))%Z
      then Some selection
      else None
  | Raise _ => None
  end.

(** The message for an answer that is not accepted. *)
Definition rejection (limit : option nat) (answer : str) : str :=
  match int limit answer with
  | Ok _ => not_an_option
  | Raise _ => not_an_integer
  end.

(** The records the loop of [parse_geom_from_log] passes over. *)
Definition short_record (entry : str) : bool := length (fields entry) <? 4.

(** A file system for [glob]: two .log files and one .xyz file in [runs],
    nothing elsewhere. *)
Definition sample_glob (pattern : str) : list str :=
  if list_eq_dec ascii_dec pattern (lit "runs/*.log")
  then [lit "runs/water.log"; lit "runs/co.log"]
  else if list_eq_dec ascii_dec pattern (lit "runs/*.xyz")
  then [lit "runs/h2.xyz"]
  else [].

(** What [open] and [readlines] give for three paths. *)
Definition sample_readlines (file : str) : result (list str) :=
  if list_eq_dec ascii_dec file (lit "runs/h2.xyz") then Ok xyz_three_atoms
  else if list_eq_dec ascii_dec file (lit "runs/co.log") then Ok log_two_segments
  else if list_eq_dec ascii_dec file (lit "runs/water.log")
  then Ok log_five_segments
  else Raise OSError.

(** ** [float] on a few literals *)

Example float_examples :
  float (lit "0.0") = Ok (Ffin 0) /\
  float (lit "   1.0 ") = Ok (Ffin 1) /\
  float (lit "-12.5e-1") = Ok (Ffin (-5 # 4)) /\
  float (lit "0.000000") = Ok (Ffin 0) /\
  float (lit "1.") = Ok (Ffin 1) /\
  float (lit ".5") = Ok (Ffin (1 # 2)) /\
  float (lit "1_0") = Ok (Ffin 10) /\
  float (lit "-Infinity") = Ok (Finf true) /\
  float (lit "") = Raise ValueError /\
  float (lit "   ") = Raise ValueError /\
  float (lit "1 2") = Raise ValueError /\
  float (lit "1e") = Raise ValueError /\
  float (lit "_1") = Raise ValueError /\
  float (lit "abc") = Raise ValueError.
Proof. repeat split; vm_compute; reflexivity. Qed.

(** ** Lists and text *)

Section Text.

Lemma slice_app (pre mid post : str) (i j : nat) :
  length pre = i -> length mid = j - i ->
  Py.slice i j (pre ++ mid ++ post) = mid.
Proof.
  intros Hpre Hmid. unfold Py.slice.
  rewrite skipn_app, <- Hpre, skipn_all, Nat.sub_diag. simpl.
  rewrite Hpre, <- Hmid, firstn_app, Nat.sub_diag, firstn_all. simpl.
  apply app_nil_r.
Qed.

Lemma slice_short (i j : nat) (s : str) :
  length s <= i -> Py.slice i j s = [].
Proof.
  intros H. unfold Py.slice. rewrite skipn_all2 by exact H.
  apply firstn_nil.
Qed.

Lemma length_ljust (w : nat) (s : str) :
  length s <= w -> length (Py.ljust w s) = w.
Proof.
  intros H. unfold Py.ljust. rewrite length_app, repeat_length. lia.
Qed.

Lemma length_rjust (w : nat) (s : str) :
  length s <= w -> length (Py.rjust w s) = w.
Proof.
  intros H. unfold Py.rjust. rewrite length_app, repeat_length. lia.
Qed.

Variable p : ascii -> bool.
Hypothesis p_space : p Py.space = true.

Lemma lstrip_spaces (n : nat) (s : str) :
  Py.lstrip_by p (repeat Py.space n ++ s) = Py.lstrip_by p s.
Proof.
  induction n as [|n IH]; simpl; [reflexivity|].
  rewrite p_space. exact IH.
Qed.

Lemma lstrip_app (s t : str) :
  Py.lstrip_by p (s ++ t) =
  match Py.lstrip_by p s with
  | [] => Py.lstrip_by p t
  | _ :: _ => Py.lstrip_by p s ++ t
  end.
Proof.
  induction s as [|c s IH]; simpl.
  - destruct (Py.lstrip_by p t); reflexivity.
  - destruct (p c); [exact IH | reflexivity].
Qed.

Lemma rstrip_spaces (n : nat) (s : str) :
  Py.rstrip_by p (s ++ repeat Py.space n) = Py.rstrip_by p s.
Proof.
  unfold Py.rstrip_by.
  rewrite rev_app_distr, rev_repeat, lstrip_spaces. reflexivity.
Qed.

Lemma strip_spaces_left (n : nat) (s : str) :
  Py.strip_by p (repeat Py.space n ++ s) = Py.strip_by p s.
Proof. unfold Py.strip_by. rewrite lstrip_spaces. reflexivity. Qed.

Lemma strip_spaces_right (n : nat) (s : str) :
  Py.strip_by p (s ++ repeat Py.space n) = Py.strip_by p s.
Proof.
  unfold Py.strip_by. rewrite lstrip_app.
  destruct (Py.lstrip_by p s) as [|c u] eqn:E.
  - replace (repeat Py.space n) with (repeat Py.space n ++ [])
      by apply app_nil_r.
    rewrite lstrip_spaces. reflexivity.
  - apply rstrip_spaces.
Qed.

End Text.

(** ** [float] and padding *)

Lemma underscores_ok_after_space (s : str) :
  Float.underscores_ok (Some Py.space) s = Float.underscores_ok None s.
Proof. destruct s; reflexivity. Qed.

Lemma underscores_ok_spaces (n : nat) (s : str) :
  Float.underscores_ok None (repeat Py.space n ++ s) =
  Float.underscores_ok None s.
Proof.
  induction n as [|n IH]; [reflexivity|].
  destruct n; simpl repeat; simpl app.
  - change (Float.underscores_ok None (Py.space :: s))
      with (Float.underscores_ok (Some Py.space) s).
    apply underscores_ok_after_space.
  - change (Float.underscores_ok None (Py.space :: Py.space :: repeat Py.space n ++ s))
      with (Float.underscores_ok (Some Py.space) (Py.space :: repeat Py.space n ++ s)).
    rewrite underscores_ok_after_space. exact IH.
Qed.

Lemma remove_spaces (c : ascii) (n : nat) (s : str) :
  c <> Py.space ->
  Py.remove c (repeat Py.space n ++ s) = repeat Py.space n ++ Py.remove c s.
Proof.
  intros Hc. induction n as [|n IH]; [reflexivity|].
  simpl. destruct (Ascii.eqb_spec c Py.space) as [E|_]; [contradiction|].
  simpl. f_equal. exact IH.
Qed.

(** Leading spaces do not change what [float] reads. *)
Lemma float_spaces (n : nat) (s : str) :
  float (repeat Py.space n ++ s) = float s.
Proof.
  unfold float, Float.parse.
  rewrite underscores_ok_spaces, remove_spaces by discriminate.
  rewrite strip_spaces_left by reflexivity. reflexivity.
Qed.

Lemma float_rjust (w : nat) (s : str) : float (Py.rjust w s) = float s.
Proof. apply float_spaces. Qed.

Lemma float_empty : float [] = Raise ValueError.
Proof. reflexivity. Qed.

Lemma float_raises (s : str) (e : exn) : float s = Raise e -> e = ValueError.
Proof.
  unfold float. destruct (Float.parse s); intros H; inversion H; reflexivity.
Qed.

(** ** The fixed-column reader and the loop over it *)

Lemma fixed_columns_raises (line : str) (e : exn) :
  fixed_columns line = Raise e -> e = ValueError.
Proof.
  unfold fixed_columns, bind.
  destruct (float (Py.slice 2 17 line)) eqn:Ex;
    [|intros H; inversion H; subst; eapply float_raises; eassumption].
  destruct (float (Py.slice 18 32 line)) eqn:Ey;
    [|intros H; inversion H; subst; eapply float_raises; eassumption].
  destruct (float (Py.slice 33 47 line)) eqn:Ez;
    [|intros H; inversion H; subst; eapply float_raises; eassumption].
  discriminate.
Qed.

Lemma reads_slices (line : str) :
  reads line =
  is_ok (float (Py.slice 2 17 line))
  && is_ok (float (Py.slice 18 32 line))
  && is_ok (float (Py.slice 33 47 line)).
Proof.
  unfold reads, fixed_columns, bind.
  destruct (float (Py.slice 2 17 line)); [|reflexivity].
  destruct (float (Py.slice 18 32 line)); [|reflexivity].
  destruct (float (Py.slice 33 47 line)); reflexivity.
Qed.

Lemma not_reads_raises (line : str) :
  reads line = false -> fixed_columns line = Raise ValueError.
Proof.
  unfold reads. destruct (fixed_columns line) as [a|e] eqn:E; [discriminate|].
  intros _. f_equal. eapply fixed_columns_raises; eassumption.
Qed.

(** The loop returns the rows of all the texts when the reader accepts
    each of them, and raises [ValueError] otherwise. *)
Lemma read_rows_all_or_nothing (texts : list str) (atoms : list row) :
  read_rows texts atoms =
  if forallb reads texts then Ok (atoms ++ rows_read texts)
  else Raise ValueError.
Proof.
  revert atoms. induction texts as [|t texts IH]; intros atoms; simpl.
  - rewrite app_nil_r. reflexivity.
  - destruct (reads t) eqn:R.
    + unfold reads in R. destruct (fixed_columns t) as [a|e]; [|discriminate].
      simpl. rewrite IH. rewrite <- app_assoc. reflexivity.
    + rewrite (not_reads_raises _ R). reflexivity.
Qed.

Lemma rows_read_each (texts : list str) :
  forallb reads texts = true ->
  Forall2 (fun t a => fixed_columns t = Ok a) texts (rows_read texts).
Proof.
  induction texts as [|t texts IH]; simpl; intros H; [constructor|].
  apply andb_true_iff in H. destruct H as [R H]. unfold reads in R.
  destruct (fixed_columns t) as [a|e] eqn:E; [|discriminate].
  simpl. constructor; [exact E | exact (IH H)].
Qed.

(** The four slices of a line laid out in the fixed columns. *)
Lemma layout_slices (a b c d tail : str) (p q : ascii) :
  length a = 2 -> length b = 15 -> length c = 14 -> length d = 14 ->
  let line := a ++ b ++ [p] ++ c ++ [q] ++ d ++ tail in
  Py.slice 0 2 line = a /\ Py.slice 2 17 line = b /\
  Py.slice 18 32 line = c /\ Py.slice 33 47 line = d.
Proof.
  intros Ha Hb Hc Hd line. subst line. repeat split.
  - apply (slice_app [] a); [reflexivity | exact Ha].
  - apply slice_app; [exact Ha | exact Hb].
  - replace (a ++ b ++ [p] ++ c ++ [q] ++ d ++ tail)
      with ((a ++ b ++ [p]) ++ c ++ [q] ++ d ++ tail)
      by (rewrite <- !app_assoc; reflexivity).
    apply slice_app; [rewrite !length_app, Ha, Hb; reflexivity | exact Hc].
  - replace (a ++ b ++ [p] ++ c ++ [q] ++ d ++ tail)
      with ((a ++ b ++ [p] ++ c ++ [q]) ++ d ++ tail)
      by (rewrite <- !app_assoc; reflexivity).
    apply slice_app; [rewrite !length_app, Ha, Hb, Hc; reflexivity | exact Hd].
Qed.

(** ** The fixed-column reader (claims C3 and C6) *)

(** C3, as amended: for every symbol of at most 2 characters, every
    one-character pad, and all texts x of at most 15 and y, z of at most 14
    characters, the fixed-column reader applied to the line
    symbol.ljust(2) + x.rjust(15) + pad + y.rjust(14) + pad + z.rjust(14),
    followed by any further text, returns the whitespace-trimmed symbol with
    float(x), float(y) and float(z), and fails exactly when one of these
    three conversions fails. *)
Theorem fixed_column_round_trip
    (symbol x y z tail : str) (pad : ascii) :
  length symbol <= 2 -> length x <= 15 -> length y <= 14 -> length z <= 14 ->
  fixed_columns
    (Py.ljust 2 symbol ++ Py.rjust 15 x ++ [pad] ++ Py.rjust 14 y ++ [pad]
       ++ Py.rjust 14 z ++ tail)
  = (fx <- float x ;; fy <- float y ;; fz <- float z ;;
     Ok (Py.strip symbol, fx, fy, fz)).
Proof.
  intros Hs Hx Hy Hz.
  destruct (layout_slices (Py.ljust 2 symbol) (Py.rjust 15 x) (Py.rjust 14 y)
              (Py.rjust 14 z) tail pad pad
              (@length_ljust 2 symbol Hs) (@length_rjust 15 x Hx)
              (@length_rjust 14 y Hy) (@length_rjust 14 z Hz))
    as (E0 & E1 & E2 & E3).
  unfold fixed_columns. rewrite E0, E1, E2, E3, !float_rjust.
  unfold Py.strip, Py.ljust.
  rewrite strip_spaces_right by reflexivity. reflexivity.
Qed.

Lemma fixed_column_round_trip_witness :
  (length (lit "Cl") <= 2 /\ length (lit "1.250000") <= 15 /\
   length (lit "-0.500000") <= 14 /\ length (lit "3.000000") <= 14) /\
  fixed_columns
    (Py.ljust 2 (lit "Cl") ++ Py.rjust 15 (lit "1.250000") ++ [Py.space]
       ++ Py.rjust 14 (lit "-0.500000") ++ [Py.space]
       ++ Py.rjust 14 (lit "3.000000") ++ [Py.newline])
  = Ok (lit "Cl", Ffin (5 # 4), Ffin (-1 # 2), Ffin 3).
Proof.
  split; [simpl; lia|].
  etransitivity; [apply fixed_column_round_trip; simpl; lia|].
  vm_compute. reflexivity.
Defined.

(** C3 as stated fails: with a pad after the symbol every number stands one
    column to the right of its slice and loses its last character, so that
    1.5, 2.5 and 3.5 are read back as 1, 2 and 3. *)
Lemma padded_line_not_recovered :
  float (lit "1.5") = Ok (Ffin (3 # 2)) /\
  float (lit "2.5") = Ok (Ffin (5 # 2)) /\
  float (lit "3.5") = Ok (Ffin (7 # 2)) /\
  fixed_columns (padded_line (lit "C") (lit " ") (lit "1.5") (lit "2.5") (lit "3.5"))
  = Ok (lit "C", Ffin 1, Ffin 2, Ffin 3).
Proof. repeat split; vm_compute; reflexivity. Qed.

(** C6, as amended: the fixed-column reader fails, with [ValueError],
    exactly when one of the substrings sliced at [2,17), [18,32) and [33,47),
    each cut at the end of the line, is not a floating-point literal; in
    particular every line shorter than 34 characters is rejected, its last
    slice being empty. *)
Theorem fixed_columns_fails_iff (line : str) :
  (is_ok (fixed_columns line) = false <-> fixed_columns line = Raise ValueError)
  /\ (fixed_columns line = Raise ValueError <->
      float (Py.slice 2 17 line) = Raise ValueError \/
      float (Py.slice 18 32 line) = Raise ValueError \/
      float (Py.slice 33 47 line) = Raise ValueError)
  /\ (length line < 34 -> fixed_columns line = Raise ValueError).
Proof.
  assert (Hfail : forall s, is_ok (float s) = false <-> float s = Raise ValueError).
  { intros s. split.
    - destruct (float s) as [f|e] eqn:E; [discriminate|].
      intros _. f_equal. eapply float_raises; eassumption.
    - intros ->. reflexivity. }
  assert (H1 : is_ok (fixed_columns line) = false
               <-> fixed_columns line = Raise ValueError).
  { split; [apply not_reads_raises | intros ->; reflexivity]. }
  assert (H2 : fixed_columns line = Raise ValueError <->
      float (Py.slice 2 17 line) = Raise ValueError \/
      float (Py.slice 18 32 line) = Raise ValueError \/
      float (Py.slice 33 47 line) = Raise ValueError).
  { rewrite <- H1. fold (reads line). rewrite reads_slices, <- !Hfail.
    rewrite !andb_false_iff. tauto. }
  repeat split; try apply H1; try apply H2.
  intros Hlen. apply H2. right. right.
  rewrite slice_short by lia. reflexivity.
Qed.

Lemma fixed_columns_fails_iff_witness :
  length (lit "C        0.000000       0.000000") < 34 /\
  fixed_columns (lit "C        0.000000       0.000000") = Raise ValueError.
Proof.
  split; [simpl; lia|].
  apply (proj2 (proj2 (fixed_columns_fails_iff _))). simpl; lia.
Defined.

(** C6 as stated fails: a line of 34 characters, shorter than 47, is
    accepted, the slice [33,47) being cut at the end of the line. *)
Lemma short_line_accepted :
  length (lit "H               1              2 3") = 34 /\
  fixed_columns (lit "H               1              2 3")
  = Ok (lit "H", Ffin 1, Ffin 2, Ffin 3).
Proof. split; vm_compute; reflexivity. Qed.

(** ** [parse_geom_from_xyz] (claim C5) *)

(** C5, as amended: the parser skips the first two lines whatever they
    hold (the result does not depend on them), applies the fixed-column
    reader to every remaining line, an empty one included, and returns one
    row per remaining line in file order when the reader accepts them all,
    so that three well-formed atom lines after the two skipped lines give
    exactly three atoms; a remaining line that the reader rejects aborts the
    parse with [ValueError]. *)
Theorem xyz_reads_every_line (lines : list str) :
  (forallb reads (skipn 2 lines) = true ->
   exists atoms,
     parse_geom_from_xyz lines = Ok atoms
     /\ Forall2 (fun line a => fixed_columns line = Ok a) (skipn 2 lines) atoms
     /\ length atoms = length lines - 2)
  /\ (forallb reads (skipn 2 lines) = false ->
      parse_geom_from_xyz lines = Raise ValueError)
  /\ (forall header comment header' comment' data,
         lines = header :: comment :: data ->
         parse_geom_from_xyz lines
         = parse_geom_from_xyz (header' :: comment' :: data)).
Proof.
  unfold parse_geom_from_xyz.
  split; [|split];
    [ rewrite read_rows_all_or_nothing; intros H; rewrite H
    | rewrite read_rows_all_or_nothing; intros H; rewrite H; reflexivity
    | intros header comment header' comment' data ->; reflexivity ].
  exists (rows_read (skipn 2 lines)). split; [reflexivity|].
  pose proof (rows_read_each _ H) as F. split; [exact F|].
  rewrite <- (Forall2_length F). apply length_skipn.
Qed.

Lemma xyz_reads_every_line_witness :
  forallb reads (skipn 2 xyz_three_atoms) = true /\
  exists atoms,
    parse_geom_from_xyz xyz_three_atoms = Ok atoms
    /\ Forall2 (fun line a => fixed_columns line = Ok a)
         (skipn 2 xyz_three_atoms) atoms
    /\ length atoms = 3.
Proof.
  split; [vm_compute; reflexivity|].
  apply (proj1 (xyz_reads_every_line xyz_three_atoms)).
  vm_compute; reflexivity.
Defined.

(** C5 as stated fails: an empty line after the atom lines is not passed
    over but read, and aborts the parse. *)
Lemma xyz_empty_line_aborts :
  xyz_skipping_empty_lines xyz_empty_last_line
  = Ok [(lit "He", Ffin 0, Ffin 0, Ffin 0)]
  /\ parse_geom_from_xyz xyz_empty_last_line = Raise ValueError.
Proof. split; vm_compute; reflexivity. Qed.

(** ** [parse_geom_from_com] (claims C1 and C7) *)

(** C1, as amended: for every .com input the parse succeeds exactly when
    the fixed-offset slices of every candidate match are floating-point
    literals, and then returns the rows of all the matches in order of
    appearance; a single match with a slice that is too short or is not a
    floating-point literal aborts the whole parse with [ValueError]. *)
Theorem com_bad_match_aborts (lines : list str) :
  parse_geom_from_com lines =
  if forallb reads (com_matches lines)
  then Ok (rows_read (com_matches lines))
  else Raise ValueError.
Proof.
  unfold parse_geom_from_com. apply read_rows_all_or_nothing.
Qed.

(** C1 as stated fails: the title line gives the candidate [le 1], whose
    slices are too short; it is not passed over, and the atom line after it
    is never returned. *)
Lemma com_bad_match_not_skipped :
  com_matches com_with_title
  = [ lit "le 1"; lit "C        0.000000       0.000000       0.000000" ]
  /\ fixed_columns (lit "le 1") = Raise ValueError
  /\ rows_read (com_matches com_with_title) = [(lit "C", Ffin 0, Ffin 0, Ffin 0)]
  /\ parse_geom_from_com com_with_title = Raise ValueError.
Proof. repeat split; vm_compute; reflexivity. Qed.

(** C7, as amended: in a .com body made of the route line
    "# opt freq b3lyp/6-31g" followed by an atom line, the route line gives
    no candidate match and the atom line is the only candidate; when the
    atom line is laid out in the fixed columns, as
    "C        0.000000       0.000000       0.000000", the parse succeeds
    with exactly one atom, "C" at (0,0,0). *)
Theorem com_route_line_no_atom :
  Re.findall pattern (ln "# opt freq b3lyp/6-31g") = []
  /\ com_matches com_route_then_atom
     = [ lit "C    0.000000   0.000000   0.000000" ]
  /\ com_matches com_route_then_columns
     = [ lit "C        0.000000       0.000000       0.000000" ]
  /\ parse_geom_from_com com_route_then_columns
     = Ok [(lit "C", Ffin 0, Ffin 0, Ffin 0)].
Proof. repeat split; vm_compute; reflexivity. Qed.

(** C7 as stated fails: the atom line as given is not in the fixed columns,
    its slice [2,17) is "   0.000000   0", and the parse raises
    [ValueError]. *)
Lemma com_route_then_atom_raises :
  Py.slice 2 17 (lit "C    0.000000   0.000000   0.000000")
  = lit "   0.000000   0"
  /\ float (lit "   0.000000   0") = Raise ValueError
  /\ parse_geom_from_com com_route_then_atom = Raise ValueError.
Proof. repeat split; vm_compute; reflexivity. Qed.

(** ** [parse_geom_from_log] (claims C2, C4, C8 and C10) *)

Lemma fold_left_app_concat (f : str -> str) (xs : list str) (init : str) :
  fold_left (fun acc x => acc ++ f x) xs init = init ++ concat (map f xs).
Proof.
  revert init. induction xs as [|x xs IH]; intros init; simpl.
  - symmetry. apply app_nil_r.
  - rewrite IH, app_assoc. reflexivity.
Qed.

(** [chunks] is the archive text split at the double backslashes. *)
Lemma log_chunks_archive_text (lines : list str) :
  log_chunks lines =
  Py.split [Py.backslash; Py.backslash] (archive_text lines).
Proof.
  unfold log_chunks, log_result_string, archive_text.
  rewrite fold_left_app_concat. reflexivity.
Qed.

(** [split] returns at least one piece. *)
Lemma split_from_not_nil (sep : str) (skip : nat) (s : str) :
  Py.split_from sep skip s <> [].
Proof.
  revert skip. induction s as [|c s IH]; intros skip; simpl; [discriminate|].
  destruct skip as [|k]; [|apply IH].
  destruct (Py.startswith sep (c :: s)); [discriminate|].
  destruct (Py.split_from sep 0 s); discriminate.
Qed.

(** A text without the separator character is a single piece. *)
Lemma split_without_separator (c : ascii) (s : str) :
  Py.contains c s = false -> Py.split [c] s = [s].
Proof.
  unfold Py.split. induction s as [|d s IH]; simpl; intros H; [reflexivity|].
  apply orb_false_iff in H. destruct H as [Hd Hs].
  rewrite Hd. simpl. rewrite (IH Hs). reflexivity.
Qed.

Lemma log_entry_fields (entry : str) :
  log_entry entry = entry_of_fields (fields entry).
Proof. reflexivity. Qed.

Lemma float_cases (s : str) :
  (exists f, float s = Ok f) \/ float s = Raise ValueError.
Proof.
  unfold float. destruct (Float.parse s) as [f|]; [left; exists f|right];
    reflexivity.
Qed.

Ltac float_case s :=
  let f := fresh "f" in
  let E := fresh "E" in
  destruct (float_cases s) as [[f E]|E]; rewrite E; simpl.

(** What the body of the [try] does, by the number of fields and the first
    coordinate field that is not a number. *)
Lemma entry_of_fields_outcome (a : list str) :
  let bad := existsb (fun f => negb (is_ok (float f))) (firstn 3 (skipn 1 a)) in
  (a <> [] -> bad = true -> entry_of_fields a = Raise ValueError)
  /\ (bad = false -> length a < 4 -> entry_of_fields a = Raise IndexError)
  /\ (bad = false -> 4 <= length a -> is_ok (entry_of_fields a) = true).
Proof.
  unfold entry_of_fields, Py.getitem, bind.
  destruct a as [|n [|x [|y [|z r]]]]; simpl.
  - repeat split; intros; try reflexivity; try congruence; lia.
  - repeat split; intros; try reflexivity; try congruence; lia.
  - float_case x; repeat split; intros; try reflexivity; try congruence; lia.
  - float_case x; [float_case y|];
      repeat split; intros; try reflexivity; try congruence; lia.
  - float_case x; [float_case y; [float_case z|]|];
      repeat split; intros; try reflexivity; try congruence; lia.
Qed.

Lemma fields_not_nil (entry : str) : fields entry <> [].
Proof. apply split_from_not_nil. Qed.

Lemma log_entry_bad (entry : str) :
  bad_coordinate entry = true -> log_entry entry = Raise ValueError.
Proof.
  intros H. rewrite log_entry_fields.
  apply (proj1 (entry_of_fields_outcome (fields entry)));
    [apply fields_not_nil | exact H].
Qed.

Lemma log_entry_short (entry : str) :
  bad_coordinate entry = false -> length (fields entry) < 4 ->
  log_entry entry = Raise IndexError.
Proof.
  intros H L. rewrite log_entry_fields.
  apply (proj1 (proj2 (entry_of_fields_outcome (fields entry)))); assumption.
Qed.

Lemma log_entry_full (entry : str) :
  bad_coordinate entry = false -> 4 <= length (fields entry) ->
  is_ok (log_entry entry) = true.
Proof.
  intros H L. rewrite log_entry_fields.
  apply (proj2 (proj2 (entry_of_fields_outcome (fields entry)))); assumption.
Qed.

(** The loop returns the rows of the records with four fields or more,
    unless a coordinate field met is not a number. *)
Lemma log_loop_outcome (data : list str) (molecule : list row)
    (out : list string) :
  outcome (log_loop data molecule out) =
  if existsb bad_coordinate data then Raise ValueError
  else Ok (molecule ++ records_read data).
Proof.
  revert molecule out.
  induction data as [|e data IH]; intros molecule out; simpl.
  - rewrite app_nil_r. reflexivity.
  - destruct (bad_coordinate e) eqn:B; simpl.
    + rewrite (log_entry_bad _ B). reflexivity.
    + destruct (le_lt_dec 4 (length (fields e))) as [L|L].
      * pose proof (log_entry_full _ B L) as F.
        destruct (log_entry e) as [a|x]; [|discriminate].
        rewrite IH, <- app_assoc. reflexivity.
      * rewrite (log_entry_short _ B L), IH. reflexivity.
Qed.

(** The parser, by the chunk of index 3 of the archive text. *)
Lemma parse_geom_from_log_chunk (lines : list str) :
  parse_geom_from_log lines =
  match nth_error (Py.split [Py.backslash; Py.backslash] (archive_text lines)) 3
  with
  | None => {| printed := []; outcome := Raise IndexError |}
  | Some chunk => log_loop (skipn 1 (Py.split [Py.backslash] chunk)) [] []
  end.
Proof.
  unfold parse_geom_from_log, Py.getitem.
  rewrite log_chunks_archive_text.
  destruct (nth_error _ 3); reflexivity.
Qed.

(** A record of four fields or more whose coordinates are numbers gives
    its row. *)
Lemma log_entry_record (entry symbol x y z : str) (rest : list str)
    (fx fy fz : pyfloat) :
  Py.split [Py.comma] entry = symbol :: x :: y :: z :: rest ->
  float x = Ok fx -> float y = Ok fy -> float z = Ok fz ->
  log_entry entry = Ok (symbol, fx, fy, fz).
Proof.
  intros Ha Hx Hy Hz. unfold log_entry, entry_of_fields. rewrite Ha. simpl.
  rewrite Hx, Hy, Hz. reflexivity.
Qed.

(** When every element is such a record the loop appends their rows, one
    per element and in order, and prints nothing. *)
Lemma log_loop_reads_records (data : list str) (rows molecule : list row)
    (out : list string) :
  Forall2 reads_record data rows ->
  log_loop data molecule out
  = {| printed := out; outcome := Ok (molecule ++ rows) |}.
Proof.
  intros H. revert molecule.
  induction H as [|entry a data rows Ha _ IH]; intros molecule.
  - simpl. rewrite app_nil_r. reflexivity.
  - destruct Ha as (symbol & x & y & z & rest & fx & fy & fz
                    & Hs & Hx & Hy & Hz & ->).
    cbn [log_loop]. rewrite (@log_entry_record _ _ _ _ _ _ _ _ _ Hs Hx Hy Hz).
    rewrite IH, <- app_assoc. reflexivity.
Qed.

(** C2: the parser keeps the lines that contain a backslash, joins them
    with newlines and spaces removed, splits the text at the double
    backslashes, takes the chunk of index 3, splits it at the single
    backslashes and drops the first element, and reads each remaining element
    as a record symbol,x,y,z separated by commas: when every remaining
    element is such a record, the result is the list of their rows, one per
    element and in order, each with the symbol and the three numbers of its
    element, and nothing is printed.  For an archive of exactly 5 segments
    whose segment 3 is "0,1\C,0.0,0.0,0.0\H,1.0,0.0,0.0" the result is the two
    atoms ("C",0,0,0) and ("H",1,0,0), in that order. *)
Theorem log_chunk_selection (lines : list str) :
  (forall chunk,
      nth_error (Py.split [Py.backslash; Py.backslash] (archive_text lines)) 3
      = Some chunk ->
      parse_geom_from_log lines
      = log_loop (skipn 1 (Py.split [Py.backslash] chunk)) [] [])
  /\ (forall chunk rows,
         nth_error (Py.split [Py.backslash; Py.backslash] (archive_text lines)) 3
         = Some chunk ->
         Forall2 reads_record (skipn 1 (Py.split [Py.backslash] chunk)) rows ->
         parse_geom_from_log lines = {| printed := []; outcome := Ok rows |})
  /\ (forall entry symbol x y z rest fx fy fz,
         Py.split [Py.comma] entry = symbol :: x :: y :: z :: rest ->
         float x = Ok fx -> float y = Ok fy -> float z = Ok fz ->
         log_entry entry = Ok (symbol, fx, fy, fz))
  /\ (forall c0 c1 c2 c4,
         Py.split [Py.backslash; Py.backslash] (archive_text lines)
         = [c0; c1; c2; geometry_segment; c4] ->
         parse_geom_from_log lines
         = {| printed := [];
              outcome := Ok [ (lit "C", Ffin 0, Ffin 0, Ffin 0);
                              (lit "H", Ffin 1, Ffin 0, Ffin 0) ] |}).
Proof.
  split; [|split; [|split]].
  - intros chunk H. rewrite parse_geom_from_log_chunk, H. reflexivity.
  - intros chunk rows H R. rewrite parse_geom_from_log_chunk, H.
    apply (@log_loop_reads_records _ rows [] [] R).
  - intros entry symbol x y z rest fx fy fz. apply log_entry_record.
  - intros c0 c1 c2 c4 H. rewrite parse_geom_from_log_chunk, H.
    vm_compute. reflexivity.
Qed.

Lemma log_chunk_selection_witness :
  (nth_error
     (Py.split [Py.backslash; Py.backslash] (archive_text log_other_records)) 3
   = Some (lit "0,1\O,0.0,0.0,1.2,7\H,-0.5,1e-1,.25")
   /\ Forall2 reads_record
        (skipn 1 (Py.split [Py.backslash]
                    (lit "0,1\O,0.0,0.0,1.2,7\H,-0.5,1e-1,.25")))
        [ (lit "O", Ffin 0, Ffin 0, Ffin (6 # 5));
          (lit "H", Ffin (-1 # 2), Ffin (1 # 10), Ffin (1 # 4)) ]
   /\ parse_geom_from_log log_other_records
      = {| printed := [];
           outcome := Ok [ (lit "O", Ffin 0, Ffin 0, Ffin (6 # 5));
                           (lit "H", Ffin (-1 # 2), Ffin (1 # 10),
                            Ffin (1 # 4)) ] |})
  /\ Py.split [Py.backslash; Py.backslash] (archive_text log_five_segments)
     = [ lit "1\1\GINC-NODE\FOpt\RB3LYP\6-31G"; lit "#opt"; lit "title";
         geometry_segment; lit "Version=ES64L" ]
  /\ parse_geom_from_log log_five_segments
     = {| printed := [];
          outcome := Ok [ (lit "C", Ffin 0, Ffin 0, Ffin 0);
                          (lit "H", Ffin 1, Ffin 0, Ffin 0) ] |}.
Proof.
  assert (R : Forall2 reads_record
                (skipn 1 (Py.split [Py.backslash]
                            (lit "0,1\O,0.0,0.0,1.2,7\H,-0.5,1e-1,.25")))
                [ (lit "O", Ffin 0, Ffin 0, Ffin (6 # 5));
                  (lit "H", Ffin (-1 # 2), Ffin (1 # 10), Ffin (1 # 4)) ]).
  { replace (skipn 1 (Py.split [Py.backslash]
                        (lit "0,1\O,0.0,0.0,1.2,7\H,-0.5,1e-1,.25")))
      with [lit "O,0.0,0.0,1.2,7"; lit "H,-0.5,1e-1,.25"]
      by (vm_compute; reflexivity).
    constructor; [|constructor; [|constructor]].
    - exists (lit "O"), (lit "0.0"), (lit "0.0"), (lit "1.2"), [lit "7"],
        (Ffin 0), (Ffin 0), (Ffin (6 # 5)).
      repeat match goal with |- _ /\ _ => split end; vm_compute; reflexivity.
    - exists (lit "H"), (lit "-0.5"), (lit "1e-1"), (lit ".25"), [],
        (Ffin (-1 # 2)), (Ffin (1 # 10)), (Ffin (1 # 4)).
      repeat match goal with |- _ /\ _ => split end; vm_compute; reflexivity. }
  split; [split; [|split; [exact R|]]|split].
  - vm_compute. reflexivity.
  - apply (proj1 (proj2 (log_chunk_selection log_other_records))
             (lit "0,1\O,0.0,0.0,1.2,7\H,-0.5,1e-1,.25") _
             ltac:(vm_compute; reflexivity) R).
  - vm_compute. reflexivity.
  - apply (proj2 (proj2 (proj2 (log_chunk_selection log_five_segments)))
             (lit "1\1\GINC-NODE\FOpt\RB3LYP\6-31G") (lit "#opt")
             (lit "title") (lit "Version=ES64L")).
    vm_compute. reflexivity.
Defined.

(** C4, as amended: in the per-record parsing of a .log file a record
    with fewer than 4 comma-separated fields, each coordinate field it has
    being a number, is skipped, and the parse returns the rows of all the
    records with 4 fields or more, in order; a record one of whose fields
    x, y, z is present and is not a floating-point literal is not skipped:
    it aborts the whole parse with [ValueError]. *)
Theorem log_field_errors (lines : list str) (chunk : str) :
  nth_error (Py.split [Py.backslash; Py.backslash] (archive_text lines)) 3
  = Some chunk ->
  outcome (parse_geom_from_log lines)
  = (if existsb bad_coordinate (skipn 1 (Py.split [Py.backslash] chunk))
     then Raise ValueError
     else Ok (records_read (skipn 1 (Py.split [Py.backslash] chunk))))
  /\ (forall entry,
         bad_coordinate entry = false ->
         (length (fields entry) < 4 -> log_entry entry = Raise IndexError)
         /\ (4 <= length (fields entry) -> is_ok (log_entry entry) = true))
  /\ (forall entry,
         bad_coordinate entry = true -> log_entry entry = Raise ValueError).
Proof.
  intros H. rewrite parse_geom_from_log_chunk, H, log_loop_outcome.
  repeat split.
  - apply log_entry_short; assumption.
  - apply log_entry_full; assumption.
  - apply log_entry_bad.
Qed.

Lemma log_field_errors_witness :
  nth_error
    (Py.split [Py.backslash; Py.backslash] (archive_text log_short_records)) 3
  = Some (lit "0,1\C,0.0,0.0,0.0\H,1.0,0.0\O,0.0,0.0,1.2\")
  /\ outcome (parse_geom_from_log log_short_records)
     = Ok [ (lit "C", Ffin 0, Ffin 0, Ffin 0);
            (lit "O", Ffin 0, Ffin 0, Ffin (6 # 5)) ].
Proof.
  split; [vm_compute; reflexivity|].
  etransitivity;
    [apply (proj1 (log_field_errors log_short_records
                     (chunk := lit "0,1\C,0.0,0.0,0.0\H,1.0,0.0\O,0.0,0.0,1.2\")
                     ltac:(vm_compute; reflexivity)))|].
  vm_compute. reflexivity.
Defined.

(** C4 as stated fails: a record whose z field is not a number is not
    skipped, the parse is aborted and the well-formed atom before it is
    lost; so is a record of two fields whose x field is not a number. *)
Lemma log_bad_number_aborts :
  records_read [ lit "C,0.0,0.0,0.0"; lit "H,1.0,0.0,x" ]
  = [ (lit "C", Ffin 0, Ffin 0, Ffin 0) ]
  /\ parse_geom_from_log log_bad_number
     = {| printed := []; outcome := Raise ValueError |}
  /\ length (fields (lit "H,x")) = 2
  /\ parse_geom_from_log log_short_bad_number
     = {| printed := []; outcome := Raise ValueError |}.
Proof. repeat split; vm_compute; reflexivity. Qed.

(** C8: a .log input whose archive text splits into fewer than 4 chunks
    fails, with the [IndexError] of [chunks[3]], and returns no atoms; with
    4 chunks or more this failure does not occur. *)
Theorem log_short_archive (lines : list str) :
  (outcome (parse_geom_from_log lines) = Raise IndexError
   <-> length (Py.split [Py.backslash; Py.backslash] (archive_text lines)) < 4)
  /\ (length (Py.split [Py.backslash; Py.backslash] (archive_text lines)) < 4
      -> parse_geom_from_log lines
         = {| printed := []; outcome := Raise IndexError |}).
Proof.
  rewrite parse_geom_from_log_chunk.
  destruct (nth_error _ 3) as [chunk|] eqn:E.
  - assert (L : 3 < length
        (Py.split [Py.backslash; Py.backslash] (archive_text lines))).
    { apply nth_error_Some. rewrite E. discriminate. }
    split; [split|]; intros H; try lia.
    rewrite log_loop_outcome in H.
    destruct (existsb _ _); discriminate.
  - apply nth_error_None in E.
    split; [split|]; intros; try reflexivity; lia.
Qed.

Lemma log_short_archive_witness :
  length (Py.split [Py.backslash; Py.backslash] (archive_text log_two_segments))
  = 2
  /\ parse_geom_from_log log_two_segments
     = {| printed := []; outcome := Raise IndexError |}.
Proof.
  split; [vm_compute; reflexivity|].
  apply (proj2 (log_short_archive log_two_segments)).
  vm_compute. repeat constructor.
Defined.

(** A chunk without a single backslash holds no record. *)
Lemma no_backslash_no_records (chunk : str) :
  Py.contains Py.backslash chunk = false ->
  skipn 1 (Py.split [Py.backslash] chunk) = [].
Proof. intros H. rewrite (split_without_separator _ _ H). reflexivity. Qed.

(** C10: when the archive splits into at least 4 chunks and chunk 3 has no
    element after the leading charge and multiplicity element, the parser
    returns the empty sequence of atoms, raises no error and prints
    nothing. *)
Theorem log_no_atom_records (lines : list str) (chunk : str) :
  nth_error (Py.split [Py.backslash; Py.backslash] (archive_text lines)) 3
  = Some chunk ->
  skipn 1 (Py.split [Py.backslash] chunk) = [] ->
  parse_geom_from_log lines = {| printed := []; outcome := Ok [] |}.
Proof.
  intros H E. rewrite parse_geom_from_log_chunk, H, E. reflexivity.
Qed.

Lemma log_no_atom_records_witness :
  nth_error
    (Py.split [Py.backslash; Py.backslash] (archive_text log_no_records)) 3
  = Some (lit "0,1")
  /\ skipn 1 (Py.split [Py.backslash] (lit "0,1")) = []
  /\ parse_geom_from_log log_no_records = {| printed := []; outcome := Ok [] |}.
Proof.
  split; [vm_compute; reflexivity|].
  split; [apply no_backslash_no_records; reflexivity|].
  apply (log_no_atom_records log_no_records (chunk := lit "0,1"));
    [vm_compute; reflexivity | apply no_backslash_no_records; reflexivity].
Defined.

(** ** [make_molecule_from_file] (claim C9) *)

(** The key is the text after the first dot of the path. *)
Lemma extension_key_first_dot (stem rest : str) :
  Py.contains Py.dot stem = false ->
  extension_key (stem ++ Py.dot :: rest) = Ok rest.
Proof.
  unfold extension_key. induction stem as [|c stem IH]; simpl; intros H.
  - reflexivity.
  - apply orb_false_iff in H. destruct H as [Hc Hs]. rewrite Hc.
    specialize (IH Hs). unfold bind in *.
    destruct (Py.index Py.dot (stem ++ Py.dot :: rest)) as [i|e];
      simpl in *; [|discriminate].
    exact IH.
Qed.

(** C9 at the failing inputs: a path with a dot before the one of its
    extension, in the file name or in the directory, is looked up under the
    whole text after its first dot and raises [KeyError], whatever its
    extension and whatever the file holds; so do "runs/mol.opt.log" and
    "./mol.log". *)
Theorem dispatch_first_dot
    (readlines : str -> result (list str)) (directory stem rest : str) :
  Py.contains Py.dot stem = false ->
  Py.contains Py.dot rest = true ->
  make_molecule_from_file readlines (stem ++ Py.dot :: rest) directory
  = quiet (Raise KeyError).
Proof.
  intros Hstem Hrest. unfold make_molecule_from_file.
  rewrite (extension_key_first_dot _ _ Hstem).
  assert (K : dict_get parsing_dict rest = Raise KeyError).
  { unfold parsing_dict, dict_get.
    repeat match goal with
           | |- context [list_eq_dec ascii_dec ?k rest] =>
               destruct (list_eq_dec ascii_dec k rest) as [E|_];
               [rewrite <- E in Hrest; discriminate Hrest|]
           end.
    reflexivity. }
  cbn [bind]. rewrite K. reflexivity.
Qed.

Lemma dispatch_first_dot_witness :
  (Py.contains Py.dot (lit "runs/mol") = false
   /\ Py.contains Py.dot (lit "opt.log") = true
   /\ make_molecule_from_file (fun _ => Ok log_five_segments)
        (lit "runs/mol.opt.log") (lit "runs/")
      = quiet (Raise KeyError))
  /\ (Py.contains Py.dot (lit "") = false
      /\ Py.contains Py.dot (lit "/mol.log") = true
      /\ make_molecule_from_file (fun _ => Ok log_five_segments)
           (lit "./mol.log") (lit "./")
         = quiet (Raise KeyError)).
Proof.
  split; (split; [reflexivity|]; split; [reflexivity|]).
  - apply (dispatch_first_dot _ (lit "runs/") (lit "runs/mol") (lit "opt.log"));
      reflexivity.
  - apply (dispatch_first_dot _ (lit "./") (lit "") (lit "/mol.log"));
      reflexivity.
Defined.

(** A path with a single dot is dispatched by its extension. *)
Lemma dispatch_single_dot :
  outcome (make_molecule_from_file (fun _ => Ok log_five_segments)
             (lit "runs/mol.log") (lit "runs/"))
  = Ok {| molecule_name := lit "mol.log";
          molecule_atoms :=
            [ {| atom_name := lit "C"; atom_pos := (Ffin 0, Ffin 0, Ffin 0) |};
              {| atom_name := lit "H"; atom_pos := (Ffin 1, Ffin 0, Ffin 0) |} ]
       |}.
Proof. vm_compute. reflexivity. Qed.

(** * Further properties of the code *)

(** ** [parse_geom_from_log]: what the result depends on *)

Lemma parse_geom_from_log_archive_text (lines lines' : list str) :
  archive_text lines = archive_text lines' ->
  parse_geom_from_log lines = parse_geom_from_log lines'.
Proof.
  intros H. rewrite !parse_geom_from_log_chunk, H. reflexivity.
Qed.

Lemma archive_text_app (l1 l2 : list str) :
  archive_text (l1 ++ l2) = archive_text l1 ++ archive_text l2.
Proof.
  unfold archive_text. rewrite filter_app, map_app, concat_app. reflexivity.
Qed.

Lemma archive_text_no_backslash (junk : list str) :
  forallb (fun line => negb (Py.contains Py.backslash line)) junk = true ->
  archive_text junk = [].
Proof.
  unfold archive_text. induction junk as [|l junk IH]; simpl; intros H.
  - reflexivity.
  - apply andb_true_iff in H. destruct H as [Hl Hj].
    apply negb_true_iff in Hl. rewrite Hl. exact (IH Hj).
Qed.

(** X1: lines without a backslash, wherever they stand in the file, do not
    change what [parse_geom_from_log] prints and returns. *)
Theorem log_ignores_other_lines (before junk after : list str) :
  forallb (fun line => negb (Py.contains Py.backslash line)) junk = true ->
  parse_geom_from_log (before ++ junk ++ after)
  = parse_geom_from_log (before ++ after).
Proof.
  intros H. apply parse_geom_from_log_archive_text.
  rewrite !archive_text_app, (archive_text_no_backslash _ H). reflexivity.
Qed.

Lemma log_ignores_other_lines_witness :
  forallb (fun line => negb (Py.contains Py.backslash line))
    [ ln " Job cpu time: 0 days"; ln " Normal termination" ] = true
  /\ parse_geom_from_log
       (firstn 2 log_five_segments
          ++ [ ln " Job cpu time: 0 days"; ln " Normal termination" ]
          ++ skipn 2 log_five_segments)
     = parse_geom_from_log (firstn 2 log_five_segments ++ skipn 2 log_five_segments).
Proof.
  split; [reflexivity|].
  apply log_ignores_other_lines. reflexivity.
Defined.

Lemma remove_app (c : ascii) (a b : str) :
  Py.remove c (a ++ b) = Py.remove c a ++ Py.remove c b.
Proof. apply filter_app. Qed.

Lemma contains_app (c : ascii) (a b : str) :
  Py.contains c (a ++ b) = Py.contains c a || Py.contains c b.
Proof. apply existsb_app. Qed.

Lemma archive_text_one (line : str) :
  Py.contains Py.backslash line = true ->
  archive_text [line] = Py.remove Py.space (Py.remove Py.newline line).
Proof.
  intros H. unfold archive_text. simpl. rewrite H. simpl. apply app_nil_r.
Qed.

(** X2: where the archive block is wrapped does not matter: a line may be
    broken in two, the break being a newline followed by any number of
    spaces, as long as each part contains a backslash. *)
Theorem log_wrapping (before after : list str) (a b : str) (indent : nat) :
  Py.contains Py.backslash a = true ->
  Py.contains Py.backslash b = true ->
  parse_geom_from_log
    (before ++ [a ++ [Py.newline]; repeat Py.space indent ++ b] ++ after)
  = parse_geom_from_log (before ++ [a ++ b] ++ after).
Proof.
  intros Ha Hb. apply parse_geom_from_log_archive_text.
  rewrite !archive_text_app. f_equal. f_equal.
  change [a ++ [Py.newline]; repeat Py.space indent ++ b]
    with ([a ++ [Py.newline]] ++ [repeat Py.space indent ++ b]).
  rewrite archive_text_app, !archive_text_one
    by (rewrite contains_app, ?Ha, ?Hb, ?orb_true_r; reflexivity).
  rewrite !remove_app. simpl.
  rewrite app_nil_r. f_equal.
  assert (E : Py.remove Py.space (Py.remove Py.newline (repeat Py.space indent)) = []).
  { induction indent as [|n IH]; [reflexivity | exact IH]. }
  rewrite E. reflexivity.
Qed.

Lemma log_wrapping_witness :
  (Py.contains Py.backslash (lit " 1\1\GINC\\#opt\\title\\0,1\C,0.0,0.") = true
   /\ Py.contains Py.backslash (lit "0,0.0\H,1.0,0.0,0.0\\@") = true)
  /\ parse_geom_from_log
       ([] ++ [ lit " 1\1\GINC\\#opt\\title\\0,1\C,0.0,0." ++ [Py.newline];
                repeat Py.space 1 ++ lit "0,0.0\H,1.0,0.0,0.0\\@" ] ++ [])
     = parse_geom_from_log
         ([] ++ [ lit " 1\1\GINC\\#opt\\title\\0,1\C,0.0,0."
                    ++ lit "0,0.0\H,1.0,0.0,0.0\\@" ] ++ []).
Proof.
  split; [split; reflexivity|].
  apply log_wrapping; reflexivity.
Defined.

(** ** [parse_geom_from_log]: the records and the messages *)

Lemma log_loop_printed (data : list str) (molecule : list row)
    (out : list string) :
  existsb bad_coordinate data = false ->
  printed (log_loop data molecule out)
  = out ++ repeat unexpected_format (length (filter short_record data))
  /\ length (records_read data) + length (filter short_record data)
     = length data.
Proof.
  revert molecule out.
  induction data as [|e data IH]; intros molecule out H; simpl.
  - rewrite app_nil_r. split; reflexivity.
  - simpl in H. apply orb_false_iff in H. destruct H as [B H].
    destruct (short_record e) eqn:S; unfold short_record in S.
    + apply Nat.ltb_lt in S. rename S into L.
      rewrite (log_entry_short _ B L). simpl.
      destruct (IH molecule (out ++ [unexpected_format]) H) as [P C].
      rewrite P, <- app_assoc. split; [reflexivity | lia].
    + apply Nat.ltb_ge in S. rename S into L.
      pose proof (log_entry_full _ B L) as F.
      destruct (log_entry e) as [a|x]; [|discriminate].
      destruct (IH (molecule ++ [a]) out H) as [P C].
      rewrite P. simpl. split; [reflexivity | lia].
Qed.

(** X3: when no coordinate field is malformed, the parser prints its
    message once for each record of fewer than 4 fields and returns one row
    for each other record: no record is lost without a message. *)
Theorem log_one_message_per_skipped_record (lines : list str) (chunk : str) :
  nth_error (Py.split [Py.backslash; Py.backslash] (archive_text lines)) 3
  = Some chunk ->
  existsb bad_coordinate (skipn 1 (Py.split [Py.backslash] chunk)) = false ->
  exists rows,
    outcome (parse_geom_from_log lines) = Ok rows
    /\ printed (parse_geom_from_log lines)
       = repeat unexpected_format
           (length (filter short_record
                      (skipn 1 (Py.split [Py.backslash] chunk))))
    /\ length rows + length (printed (parse_geom_from_log lines))
       = length (skipn 1 (Py.split [Py.backslash] chunk)).
Proof.
  intros H B. rewrite parse_geom_from_log_chunk, H.
  destruct (log_loop_printed _ [] [] B) as [P C].
  exists (records_read (skipn 1 (Py.split [Py.backslash] chunk))).
  rewrite log_loop_outcome, B, P. simpl.
  repeat split. rewrite repeat_length. exact C.
Qed.

Lemma log_one_message_per_skipped_record_witness :
  exists rows,
    outcome (parse_geom_from_log log_short_records) = Ok rows
    /\ printed (parse_geom_from_log log_short_records)
       = repeat unexpected_format 2
    /\ length rows + length (printed (parse_geom_from_log log_short_records))
       = 4.
Proof.
  apply (log_one_message_per_skipped_record log_short_records
           (chunk := lit "0,1\C,0.0,0.0,0.0\H,1.0,0.0\O,0.0,0.0,1.2\"));
    vm_compute; reflexivity.
Defined.

(** ** [split] undoes [join] *)

Lemma split_char_cons (c d : ascii) (s : str) :
  Ascii.eqb c d = false ->
  Py.split [c] (d :: s) =
  match Py.split [c] s with
  | h :: t => (d :: h) :: t
  | [] => [[d]]
  end.
Proof. intros H. unfold Py.split. simpl. rewrite H. reflexivity. Qed.

Lemma split_char_piece (c : ascii) (x r : str) :
  Py.contains c x = false ->
  Py.split [c] (x ++ c :: r) = x :: Py.split [c] r.
Proof.
  induction x as [|d x IH]; intros H.
  - unfold Py.split. simpl. rewrite Ascii.eqb_refl. reflexivity.
  - simpl in H. apply orb_false_iff in H. destruct H as [Hd Hx].
    simpl app. rewrite (split_char_cons c d _ Hd), (IH Hx). reflexivity.
Qed.

Lemma split_join_char (c : ascii) (xs : list str) :
  xs <> [] ->
  forallb (fun x => negb (Py.contains c x)) xs = true ->
  Py.split [c] (Py.join [c] xs) = xs.
Proof.
  induction xs as [|x xs IH]; intros Hne H; [contradiction|].
  simpl in H. apply andb_true_iff in H. destruct H as [Hx Hxs].
  apply negb_true_iff in Hx.
  destruct xs as [|y xs].
  - simpl. apply split_without_separator. exact Hx.
  - change (Py.join [c] (x :: y :: xs)) with (x ++ c :: Py.join [c] (y :: xs)).
    rewrite (split_char_piece c x _ Hx), IH; [reflexivity | discriminate | exact Hxs].
Qed.

Lemma contains_join (c sep : ascii) (xs : list str) :
  Ascii.eqb c sep = false ->
  forallb (fun x => negb (Py.contains c x)) xs = true ->
  Py.contains c (Py.join [sep] xs) = false.
Proof.
  intros Hc. induction xs as [|x xs IH]; intros H; [reflexivity|].
  simpl in H. apply andb_true_iff in H. destruct H as [Hx Hxs].
  apply negb_true_iff in Hx.
  destruct xs as [|y xs]; [exact Hx|].
  change (Py.join [sep] (x :: y :: xs))
    with (x ++ sep :: Py.join [sep] (y :: xs)).
  rewrite contains_app, Hx. simpl. rewrite Hc. simpl. exact (IH Hxs).
Qed.

(** The fields of a written record are the four texts. *)
Lemma fields_record_text (r : record) :
  plain_record r = true ->
  fields (record_text r) =
  match r with (symbol, x, y, z) => [symbol; x; y; z] end.
Proof.
  destruct r as [[[symbol x] y] z]. unfold plain_record, fields, record_text.
  intros H. apply split_join_char; [discriminate|].
  simpl in *. repeat rewrite andb_true_iff in H.
  destruct H as ((Hs & _) & (Hx & _) & (Hy & _) & (Hz & _) & _).
  rewrite Hs, Hx, Hy, Hz. reflexivity.
Qed.

Lemma log_entry_record_text (r : record) :
  plain_record r = true -> log_entry (record_text r) = record_row r.
Proof.
  intros H. rewrite log_entry_fields, (fields_record_text _ H).
  destruct r as [[[symbol x] y] z]. reflexivity.
Qed.

Lemma record_text_no_backslash (r : record) :
  plain_record r = true -> Py.contains Py.backslash (record_text r) = false.
Proof.
  destruct r as [[[symbol x] y] z]. unfold plain_record, record_text.
  intros H. apply contains_join; [reflexivity|].
  simpl in *. repeat rewrite andb_true_iff in H.
  destruct H as ((_ & Hs) & (_ & Hx) & (_ & Hy) & (_ & Hz) & _).
  rewrite Hs, Hx, Hy, Hz. reflexivity.
Qed.

Lemma log_loop_records (records : list record) (molecule : list row)
    (out : list string) :
  forallb plain_record records = true ->
  forallb (fun r => is_ok (record_row r)) records = true ->
  exists rows,
    log_loop (map record_text records) molecule out
    = {| printed := out; outcome := Ok (molecule ++ rows) |}
    /\ Forall2 (fun r a => record_row r = Ok a) records rows.
Proof.
  revert molecule. induction records as [|r records IH]; intros molecule P F.
  - exists []. simpl. rewrite app_nil_r. split; [reflexivity | constructor].
  - simpl in P, F. apply andb_true_iff in P. destruct P as [Pr P].
    apply andb_true_iff in F. destruct F as [Fr F].
    simpl. rewrite (log_entry_record_text _ Pr).
    destruct (record_row r) as [a|e] eqn:E; [|discriminate].
    destruct (IH (molecule ++ [a]) P F) as (rows & L & R).
    exists (a :: rows). rewrite L, <- app_assoc.
    split; [reflexivity | constructor; assumption].
Qed.

(** X4: a geometry section written as the charge and multiplicity followed
    by records symbol,x,y,z, all joined by single backslashes, is read back
    whole: when no field holds a comma or a backslash and every coordinate
    is a floating-point literal, the parser returns one row per record, in
    order, with that symbol and those coordinates, and prints nothing. *)
Theorem log_reads_back_records
    (lines : list str) (charge : str) (records : list record) :
  nth_error (Py.split [Py.backslash; Py.backslash] (archive_text lines)) 3
  = Some (Py.join [Py.backslash] (charge :: map record_text records)) ->
  Py.contains Py.backslash charge = false ->
  forallb plain_record records = true ->
  forallb (fun r => is_ok (record_row r)) records = true ->
  exists rows,
    parse_geom_from_log lines = {| printed := []; outcome := Ok rows |}
    /\ Forall2 (fun r a => record_row r = Ok a) records rows.
Proof.
  intros H Hc P F. rewrite parse_geom_from_log_chunk, H.
  rewrite split_join_char; [|discriminate|].
  - simpl skipn. apply (log_loop_records records [] [] P F).
  - simpl. rewrite Hc. simpl.
    clear H F. induction records as [|r records IH]; [reflexivity|].
    simpl in *. apply andb_true_iff in P. destruct P as [Pr P].
    rewrite (record_text_no_backslash _ Pr). simpl. exact (IH P).
Qed.

Lemma log_reads_back_records_witness :
  exists rows,
    parse_geom_from_log log_five_segments
    = {| printed := []; outcome := Ok rows |}
    /\ Forall2 (fun r a => record_row r = Ok a)
         [ (lit "C", lit "0.0", lit "0.0", lit "0.0");
           (lit "H", lit "1.0", lit "0.0", lit "0.0") ] rows.
Proof.
  apply (log_reads_back_records log_five_segments (lit "0,1")
           [ (lit "C", lit "0.0", lit "0.0", lit "0.0");
             (lit "H", lit "1.0", lit "0.0", lit "0.0") ]);
    vm_compute; reflexivity.
Defined.

(** ** The matcher against the declarative reading of a pattern *)

Lemma greedy_le_length (p : ascii -> bool) (most : option nat) (s : str) :
  Re.greedy p most s <= length s.
Proof.
  revert most. induction s as [|c s IH]; intros most; simpl; [lia|].
  destruct (p c); [|lia].
  destruct most as [[|m]|]; try lia.
  - specialize (IH (Some m)). lia.
  - specialize (IH None). lia.
Qed.

Lemma greedy_most (p : ascii -> bool) (m : nat) (s : str) :
  Re.greedy p (Some m) s <= m.
Proof.
  revert m. induction s as [|c s IH]; intros m; simpl; [lia|].
  destruct (p c); [|lia].
  destruct m as [|m]; [lia|]. specialize (IH m). lia.
Qed.

Lemma greedy_class (p : ascii -> bool) (most : option nat) (s : str) (j : nat) :
  j <= Re.greedy p most s -> forallb p (firstn j s) = true.
Proof.
  revert most j. induction s as [|c s IH]; intros most j H.
  - destruct j; reflexivity.
  - destruct j as [|j]; [reflexivity|]. simpl in *.
    destruct (p c) eqn:E; [|lia]. simpl.
    destruct most as [[|m]|]; try lia.
    + apply (IH (Some m)). lia.
    + apply (IH None). lia.
Qed.

Lemma backtrack_sound (k : str -> option nat) (least n : nat) (s : str)
    (r : nat) :
  Re.backtrack k least n s = Some r ->
  exists j m, least <= j /\ j <= n /\ k (skipn j s) = Some m /\ r = j + m.
Proof.
  induction n as [|n IH]; cbn [Re.backtrack].
  - destruct (0 <? least) eqn:L; [discriminate|].
    apply Nat.ltb_ge in L.
    destruct (k (skipn 0 s)) as [m|] eqn:K; [|discriminate].
    intros H. injection H as <-. exists 0, m. repeat split; try lia.
    exact K.
  - destruct (S n <? least) eqn:L; [discriminate|].
    apply Nat.ltb_ge in L.
    destruct (k (skipn (S n) s)) as [m|] eqn:K.
    + intros H. injection H as <-. exists (S n), m.
      repeat split; try lia. exact K.
    + intros H. destruct (IH H) as (j & m & H1 & H2 & H3 & H4).
      exists j, m. repeat split; try lia. exact H3.
Qed.

Lemma firstn_plus (j m : nat) (s : str) :
  firstn (j + m) s = firstn j s ++ firstn m (skipn j s).
Proof.
  revert s. induction j as [|j IH]; intros s; [reflexivity|].
  destruct s as [|c s]; simpl.
  - rewrite firstn_nil. reflexivity.
  - rewrite IH. reflexivity.
Qed.

(** What [match_at] returns is the length of a prefix that matches the
    pattern. *)
Lemma match_at_sound (pat : list Re.item) (s : str) (n : nat) :
  Re.match_at pat s = Some n ->
  n <= length s /\ ReSpec.blocks pat (firstn n s).
Proof.
  revert s n. induction pat as [|it pat IH]; intros s n H; simpl in H.
  - inversion H; subst. split; [lia | constructor].
  - destruct (@backtrack_sound _ _ _ _ _ H) as (j & m & Hl & Hj & Hk & ->).
    destruct (IH _ _ Hk) as [Hm Hb].
    pose proof (greedy_le_length (Re.chars it) (Re.most it) s) as Hg.
    rewrite length_skipn in Hm.
    split; [lia|]. rewrite firstn_plus.
    assert (Lj : length (firstn j s) = j) by (rewrite length_firstn; lia).
    constructor.
    + eapply greedy_class; eassumption.
    + rewrite Lj. exact Hl.
    + destruct (Re.most it) as [mx|] eqn:M; [|exact I].
      rewrite Lj. pose proof (greedy_most (Re.chars it) mx s). lia.
    + exact Hb.
Qed.

(** Every text returned by [findall] is a match found in the text
    searched. *)
Lemma findall_from_elements (pat : list Re.item) (s : str) (skip : nat)
    (m : str) :
  In m (Re.findall_from pat skip s) ->
  exists before t n,
    s = before ++ t /\ Re.match_at pat t = Some n /\ 0 < n /\ m = firstn n t.
Proof.
  revert skip. induction s as [|c s IH]; intros skip H; [destruct H|].
  assert (Later : forall k, In m (Re.findall_from pat k s) ->
            exists before t n,
              c :: s = before ++ t /\ Re.match_at pat t = Some n /\ 0 < n
              /\ m = firstn n t).
  { intros k Hk. destruct (IH _ Hk) as (b & t & n & -> & H1 & H2 & H3).
    exists (c :: b), t, n. repeat split; assumption. }
  simpl in H. destruct skip as [|k]; [|exact (Later _ H)].
  destruct (Re.match_at pat (c :: s)) as [[|n]|] eqn:E;
    try exact (Later _ H).
  destruct H as [H|H]; [|exact (Later _ H)].
  exists [], (c :: s), (S n). repeat split; [exact E | lia | symmetry; exact H].
Qed.

(** ** [parse_geom_from_com]: the candidates *)

(** A text that matches the pattern is one or two letters, a space, and
    one or more characters among the digits, the dot, the dash and the
    space. *)
Lemma pattern_shape (m : str) :
  ReSpec.blocks pattern m ->
  exists letters rest,
    m = letters ++ Py.space :: rest
    /\ 1 <= length letters <= 2
    /\ forallb Py.isalpha_ascii letters = true
    /\ rest <> []
    /\ forallb coordinate_char rest = true.
Proof.
  unfold pattern. intros H.
  inversion H as [|it1 pat1 b1 r1 C1 L1 M1 B1]; subst; clear H.
  inversion B1 as [|it2 pat2 b2 r2 C2 L2 M2 B2]; subst; clear B1.
  inversion B2 as [|it3 pat3 b3 r3 C3 L3 M3 B3]; subst; clear B2.
  inversion B3; subst; clear B3.
  cbn [Re.chars Re.least Re.most] in *.
  destruct b2 as [|sp b2]; [cbn [length] in L2; lia|].
  cbn [forallb] in C2. apply andb_true_iff in C2. destruct C2 as [Hsp C2].
  apply Ascii.eqb_eq in Hsp. subst sp.
  assert (S2 : forallb coordinate_char b2 = true).
  { clear - C2. induction b2 as [|c b2 IH]; [reflexivity|].
    cbn [forallb] in *. apply andb_true_iff in C2. destruct C2 as [Hc C2].
    apply Ascii.eqb_eq in Hc. subst c. rewrite (IH C2). reflexivity. }
  exists b1, (b2 ++ b3 ++ []). repeat split; try assumption; try lia.
  - destruct b3; [cbn [length] in L3; lia|]. destruct b2; discriminate.
  - rewrite !forallb_app, S2, C3. reflexivity.
Qed.

(** X5: every candidate that [parse_geom_from_com] slices is one or two
    ASCII letters, a space, and one or more characters among the digits,
    the dot, the dash and the space; so a candidate never runs over the end
    of a line, and ends before any other character, such as the sign or the
    letter of an exponent. *)
Theorem com_candidate_shape (lines : list str) (m : str) :
  In m (com_matches lines) ->
  exists letters rest,
    m = letters ++ Py.space :: rest
    /\ 1 <= length letters <= 2
    /\ forallb Py.isalpha_ascii letters = true
    /\ rest <> []
    /\ forallb coordinate_char rest = true.
Proof.
  intros H. unfold com_matches, Re.findall in H.
  destruct (@findall_from_elements _ _ _ _ H) as (b & t & n & _ & Hm & _ & ->).
  apply pattern_shape. exact (proj2 (@match_at_sound _ _ _ Hm)).
Qed.

Lemma com_candidate_shape_witness :
  In (lit "le 1") (com_matches com_with_title)
  /\ exists letters rest,
       lit "le 1" = letters ++ Py.space :: rest
       /\ 1 <= length letters <= 2
       /\ forallb Py.isalpha_ascii letters = true
       /\ rest <> []
       /\ forallb coordinate_char rest = true.
Proof.
  assert (H : In (lit "le 1") (com_matches com_with_title))
    by (vm_compute; left; reflexivity).
  split; [exact H|].
  exact (com_candidate_shape com_with_title (lit "le 1") H).
Defined.

Lemma fixed_columns_name (line : str) (a : row) :
  fixed_columns line = Ok a -> row_name a = Py.strip (Py.slice 0 2 line).
Proof.
  unfold fixed_columns, bind.
  destruct (float (Py.slice 2 17 line)); [|discriminate].
  destruct (float (Py.slice 18 32 line)); [|discriminate].
  destruct (float (Py.slice 33 47 line)); [|discriminate].
  intros H. injection H as <-. reflexivity.
Qed.

Lemma alpha_not_space (c : ascii) :
  Py.isalpha_ascii c = true -> Py.isspace c = false.
Proof.
  destruct c as [[] [] [] [] [] [] [] []]; vm_compute; intros H;
    first [reflexivity | discriminate H].
Qed.

Lemma strip_letter_space (l : ascii) :
  Py.isalpha_ascii l = true -> Py.strip [l; Py.space] = [l].
Proof.
  intros H. apply alpha_not_space in H.
  unfold Py.strip, Py.strip_by, Py.rstrip_by.
  cbn [Py.lstrip_by]. rewrite H. cbn [rev app Py.lstrip_by].
  change (Py.isspace Py.space) with true. cbn iota. rewrite H. reflexivity.
Qed.

Lemma strip_two_letters (l1 l2 : ascii) :
  Py.isalpha_ascii l1 = true -> Py.isalpha_ascii l2 = true ->
  Py.strip [l1; l2] = [l1; l2].
Proof.
  intros H1 H2. apply alpha_not_space in H1, H2.
  unfold Py.strip, Py.strip_by, Py.rstrip_by.
  cbn [Py.lstrip_by]. rewrite H1. cbn [rev app Py.lstrip_by].
  rewrite H2. reflexivity.
Qed.

(** The name sliced from a candidate is its letters. *)
Lemma candidate_name (letters rest : str) :
  1 <= length letters <= 2 ->
  forallb Py.isalpha_ascii letters = true ->
  rest <> [] ->
  Py.strip (Py.slice 0 2 (letters ++ Py.space :: rest)) = letters.
Proof.
  intros L A R.
  destruct letters as [|l1 [|l2 [|l3 letters]]]; cbn [length] in L; try lia.
  - cbn [forallb] in A. apply andb_true_iff in A. destruct A as [A1 _].
    apply strip_letter_space. exact A1.
  - cbn [forallb] in A. apply andb_true_iff in A. destruct A as [A1 A].
    apply andb_true_iff in A. destruct A as [A2 _].
    apply strip_two_letters; assumption.
Qed.

Lemma Forall2_Forall_right {A B : Type} (R : A -> B -> Prop) (Q : B -> Prop)
    (xs : list A) (ys : list B) :
  Forall2 R xs ys ->
  (forall x y, In x xs -> R x y -> Q y) ->
  Forall Q ys.
Proof.
  induction 1 as [|x y xs ys Hxy _ IH]; intros H; constructor.
  - apply (H x y); [left; reflexivity | exact Hxy].
  - apply IH. intros x' y' Hin. apply H. right. exact Hin.
Qed.

(** X6: in every row that [parse_geom_from_com] returns the symbol is one
    or two ASCII letters: the leading letters of the candidate. *)
Theorem com_symbols_are_letters (lines : list str) (rows : list row) :
  parse_geom_from_com lines = Ok rows ->
  Forall (fun a => 1 <= length (row_name a) <= 2
                   /\ forallb Py.isalpha_ascii (row_name a) = true) rows.
Proof.
  unfold parse_geom_from_com. rewrite read_rows_all_or_nothing.
  destruct (forallb reads (com_matches lines)) eqn:R; [|discriminate].
  intros H. injection H as <-.
  cbn [app]. eapply Forall2_Forall_right; [exact (rows_read_each _ R)|].
  intros m a Hin Hm.
  unfold com_matches, Re.findall in Hin.
  destruct (@findall_from_elements _ _ _ _ Hin) as (b & t & n & _ & Hn & _ & ->).
  destruct (pattern_shape (proj2 (@match_at_sound _ _ _ Hn)))
    as (letters & rest & E & L & A & Rn & _).
  rewrite (@fixed_columns_name _ _ Hm), E, (@candidate_name _ _ L A Rn).
  split; assumption.
Qed.

Lemma com_symbols_are_letters_witness :
  parse_geom_from_com com_route_then_columns
  = Ok [(lit "C", Ffin 0, Ffin 0, Ffin 0)]
  /\ Forall (fun a => 1 <= length (row_name a) <= 2
                      /\ forallb Py.isalpha_ascii (row_name a) = true)
       [(lit "C", Ffin 0, Ffin 0, Ffin 0)].
Proof.
  assert (H : parse_geom_from_com com_route_then_columns
              = Ok [(lit "C", Ffin 0, Ffin 0, Ffin 0)])
    by (vm_compute; reflexivity).
  split; [exact H|].
  exact (com_symbols_are_letters com_route_then_columns H).
Defined.

Lemma contains_firstn (c : ascii) (n : nat) (s : str) :
  Py.contains c (firstn n s) = true -> Py.contains c s = true.
Proof.
  intros H. rewrite <- (firstn_skipn n s), contains_app, H. reflexivity.
Qed.

(** X7: a .com file without a space on any line has no candidate, and the
    parse returns the empty list without an error; so does the empty
    file. *)
Theorem com_no_space_no_atoms (lines : list str) :
  forallb (fun line => negb (Py.contains Py.space line)) lines = true ->
  com_matches lines = [] /\ parse_geom_from_com lines = Ok [].
Proof.
  intros H.
  assert (E : com_matches lines = []).
  { destruct (com_matches lines) as [|m ms] eqn:M; [reflexivity|].
    assert (Hin : In m (com_matches lines)) by (rewrite M; left; reflexivity).
    unfold com_matches, Re.findall in Hin.
    destruct (@findall_from_elements _ _ _ _ Hin)
      as (b & t & n & Hs & Hn & _ & Hm).
    destruct (pattern_shape (proj2 (@match_at_sound _ _ _ Hn)))
      as (letters & rest & Em & _).
    assert (C : Py.contains Py.space (Py.join [Py.newline] lines) = true).
    { rewrite Hs, contains_app.
      rewrite (@contains_firstn Py.space n t); [apply orb_true_r|].
      rewrite Em, contains_app. simpl. apply orb_true_r. }
    rewrite (@contains_join Py.space Py.newline lines) in C;
      [discriminate | reflexivity | exact H]. }
  split; [exact E|]. unfold parse_geom_from_com. rewrite E. reflexivity.
Qed.

Lemma com_no_space_no_atoms_witness :
  com_matches [ ln "%mem=4GB"; ln "#opt"; ln "" ] = []
  /\ parse_geom_from_com [ ln "%mem=4GB"; ln "#opt"; ln "" ] = Ok [].
Proof.
  apply com_no_space_no_atoms. reflexivity.
Defined.

(** ** The symbols read by the fixed-column reader *)

Section Strip.

Variable p : ascii -> bool.

Lemma length_lstrip (s : str) : length (Py.lstrip_by p s) <= length s.
Proof.
  induction s as [|c s IH]; simpl; [lia|].
  destruct (p c); simpl; lia.
Qed.

Lemma lstrip_idem (s : str) :
  Py.lstrip_by p (Py.lstrip_by p s) = Py.lstrip_by p s.
Proof.
  induction s as [|c s IH]; [reflexivity|].
  cbn [Py.lstrip_by]. destruct (p c) eqn:E; [exact IH|].
  cbn [Py.lstrip_by]. rewrite E. reflexivity.
Qed.

Lemma lstrip_suffix (s : str) : exists before, s = before ++ Py.lstrip_by p s.
Proof.
  induction s as [|c s [b IH]]; [exists []; reflexivity|].
  cbn [Py.lstrip_by]. destruct (p c).
  - exists (c :: b). simpl. f_equal. exact IH.
  - exists []. reflexivity.
Qed.

Lemma rstrip_prefix (s : str) : exists tail, s = Py.rstrip_by p s ++ tail.
Proof.
  unfold Py.rstrip_by. destruct (lstrip_suffix (rev s)) as [b E].
  exists (rev b). rewrite <- rev_app_distr, <- E, rev_involutive. reflexivity.
Qed.

Lemma length_rstrip (s : str) : length (Py.rstrip_by p s) <= length s.
Proof.
  unfold Py.rstrip_by. rewrite length_rev.
  pose proof (length_lstrip (rev s)) as H. rewrite length_rev in H. exact H.
Qed.

Lemma lstrip_fixed_head (c : ascii) (s : str) :
  Py.lstrip_by p (c :: s) = c :: s -> p c = false.
Proof.
  cbn [Py.lstrip_by]. destruct (p c); [|reflexivity].
  intros H. pose proof (length_lstrip s) as L. rewrite H in L.
  simpl in L. lia.
Qed.

Lemma lstrip_rstrip_fixed (s : str) :
  Py.lstrip_by p s = s ->
  Py.lstrip_by p (Py.rstrip_by p s) = Py.rstrip_by p s.
Proof.
  intros H. destruct (rstrip_prefix s) as [tail E].
  destruct (Py.rstrip_by p s) as [|c v]; [reflexivity|].
  rewrite E in H. simpl in H. apply lstrip_fixed_head in H.
  cbn [Py.lstrip_by]. rewrite H. reflexivity.
Qed.

Lemma rstrip_idem (s : str) :
  Py.rstrip_by p (Py.rstrip_by p s) = Py.rstrip_by p s.
Proof.
  unfold Py.rstrip_by. rewrite rev_involutive, lstrip_idem. reflexivity.
Qed.

Lemma strip_idem (s : str) :
  Py.strip_by p (Py.strip_by p s) = Py.strip_by p s.
Proof.
  unfold Py.strip_by.
  rewrite (lstrip_rstrip_fixed (lstrip_idem s)). apply rstrip_idem.
Qed.

Lemma length_strip (s : str) : length (Py.strip_by p s) <= length s.
Proof.
  unfold Py.strip_by.
  pose proof (length_rstrip (Py.lstrip_by p s)).
  pose proof (length_lstrip s). lia.
Qed.

End Strip.

(** X8: in every row that [parse_geom_from_xyz] returns the symbol has at
    most two characters and no white space at either end (it may be
    empty). *)
Theorem xyz_symbols_are_short (lines : list str) (rows : list row) :
  parse_geom_from_xyz lines = Ok rows ->
  Forall (fun a => length (row_name a) <= 2
                   /\ Py.strip (row_name a) = row_name a) rows.
Proof.
  unfold parse_geom_from_xyz. rewrite read_rows_all_or_nothing.
  destruct (forallb reads (skipn 2 lines)) eqn:R; [|discriminate].
  intros H. injection H as <-.
  cbn [app]. eapply Forall2_Forall_right; [exact (rows_read_each _ R)|].
  intros line a _ Ha. rewrite (@fixed_columns_name _ _ Ha). split.
  - pose proof (length_strip Py.isspace (Py.slice 0 2 line)) as L.
    unfold Py.slice in L. rewrite length_firstn in L.
    unfold Py.strip, Py.slice. lia.
  - apply strip_idem.
Qed.

Lemma xyz_symbols_are_short_witness :
  exists rows,
    parse_geom_from_xyz xyz_three_atoms = Ok rows
    /\ Forall (fun a => length (row_name a) <= 2
                        /\ Py.strip (row_name a) = row_name a) rows.
Proof.
  destruct (parse_geom_from_xyz xyz_three_atoms) as [rows|e] eqn:E;
    [|vm_compute in E; discriminate E].
  exists rows. split; [reflexivity|].
  exact (xyz_symbols_are_short xyz_three_atoms E).
Defined.

(** ** [make_molecule_from_file]: paths with a single dot *)

Lemma slice_from_app (a b : str) : Py.slice_from (length a) (a ++ b) = b.
Proof.
  unfold Py.slice_from. rewrite skipn_app, skipn_all, Nat.sub_diag.
  reflexivity.
Qed.

(** X9: for a path directory + rest + "." + key with a single dot, [key]
    being a key of [parsing_dict], the function applies the parser stored
    under that key to the lines of the file: an error on opening the file is
    passed on, and so is an error of the parser; otherwise the molecule is
    named rest + "." + key and holds one atom per row of the parser, in
    order. *)
Theorem dispatch_by_extension
    (readlines : str -> result (list str)) (directory rest key : str)
    (parser : list str -> run (list row)) :
  Py.contains Py.dot (directory ++ rest) = false ->
  dict_get parsing_dict key = Ok parser ->
  make_molecule_from_file readlines (directory ++ rest ++ Py.dot :: key)
    directory
  = match readlines (directory ++ rest ++ Py.dot :: key) with
    | Raise e => quiet (Raise e)
    | Ok lines =>
        {| printed := printed (parser lines);
           outcome :=
             rows <- outcome (parser lines) ;;
             Ok {| molecule_name := rest ++ Py.dot :: key;
                   molecule_atoms := map atom_of_row rows |} |}
    end.
Proof.
  intros Hdot Hkey. unfold make_molecule_from_file.
  replace (directory ++ rest ++ Py.dot :: key)
    with ((directory ++ rest) ++ Py.dot :: key)
    by (rewrite <- app_assoc; reflexivity).
  rewrite (@extension_key_first_dot _ _ Hdot). cbn [bind]. rewrite Hkey.
  destruct (readlines _) as [lines|e]; [|reflexivity].
  rewrite <- app_assoc, slice_from_app. reflexivity.
Qed.

Lemma dispatch_by_extension_witness :
  (Py.contains Py.dot (lit "runs" ++ lit "/water") = false
   /\ dict_get parsing_dict (lit "xyz")
      = Ok (fun lines => quiet (parse_geom_from_xyz lines)))
  /\ outcome
       (make_molecule_from_file (fun _ => Ok xyz_three_atoms)
          (lit "runs" ++ lit "/water" ++ Py.dot :: lit "xyz") (lit "runs"))
     = Ok {| molecule_name := lit "/water.xyz";
             molecule_atoms :=
               [ {| atom_name := lit "O";
                    atom_pos := (Ffin 0, Ffin 0, Ffin (1173 # 10000)) |};
                 {| atom_name := lit "H";
                    atom_pos := (Ffin 0, Ffin (1893 # 2500), Ffin (-1173 # 2500)) |};
                 {| atom_name := lit "H";
                    atom_pos := (Ffin 0, Ffin (-1893 # 2500), Ffin (-1173 # 2500)) |} ] |}.
Proof.
  split; [split; reflexivity|].
  rewrite (@dispatch_by_extension (fun _ => Ok xyz_three_atoms)
             (lit "runs") (lit "/water") (lit "xyz")
             (fun lines => quiet (parse_geom_from_xyz lines)));
    [vm_compute; reflexivity | reflexivity | reflexivity].
Defined.

Lemma index_without (c : ascii) (s : str) :
  Py.contains c s = false -> Py.index c s = Raise ValueError.
Proof.
  induction s as [|d s IH]; simpl; intros H; [reflexivity|].
  apply orb_false_iff in H. destruct H as [Hd Hs].
  rewrite Hd, (IH Hs). reflexivity.
Qed.

(** X10: a path without a dot raises [ValueError], and a path whose text
    after the first dot is not "log", "xyz" or "com" raises [KeyError]; in
    both cases the file is never opened and nothing is printed. *)
Theorem dispatch_unsupported
    (readlines : str -> result (list str)) (directory : str) :
  (forall file,
      Py.contains Py.dot file = false ->
      make_molecule_from_file readlines file directory
      = quiet (Raise ValueError))
  /\ (forall stem key,
         Py.contains Py.dot stem = false ->
         mem key [lit "log"; lit "xyz"; lit "com"] = false ->
         make_molecule_from_file readlines (stem ++ Py.dot :: key) directory
         = quiet (Raise KeyError)).
Proof.
  split.
  - intros file H. unfold make_molecule_from_file, extension_key.
    rewrite (index_without _ _ H). reflexivity.
  - intros stem key Hstem Hkey. unfold make_molecule_from_file.
    rewrite (@extension_key_first_dot _ _ Hstem). cbn [bind].
    unfold mem in Hkey. cbn [existsb] in Hkey.
    unfold parsing_dict, dict_get.
    destruct (list_eq_dec ascii_dec (lit "log") key); [discriminate Hkey|].
    destruct (list_eq_dec ascii_dec (lit "xyz") key); [discriminate Hkey|].
    destruct (list_eq_dec ascii_dec (lit "com") key); [discriminate Hkey|].
    reflexivity.
Qed.

Lemma dispatch_unsupported_witness :
  (Py.contains Py.dot (lit "runs/water") = false
   /\ make_molecule_from_file (fun _ => Ok xyz_three_atoms)
        (lit "runs/water") (lit "runs")
      = quiet (Raise ValueError))
  /\ (Py.contains Py.dot (lit "runs/water") = false
      /\ mem (lit "XYZ") [lit "log"; lit "xyz"; lit "com"] = false
      /\ make_molecule_from_file (fun _ => Ok xyz_three_atoms)
           (lit "runs/water" ++ Py.dot :: lit "XYZ") (lit "runs")
         = quiet (Raise KeyError)).
Proof.
  pose proof (dispatch_unsupported (fun _ => Ok xyz_three_atoms) (lit "runs"))
    as [H1 H2].
  split; [split; [reflexivity|] | split; [reflexivity | split; [reflexivity|]]].
  - apply H1. reflexivity.
  - apply H2; reflexivity.
Defined.

(** ** The loops of [main] *)

Lemma insert_by_length_perm (x : str) (xs : list str) :
  Permutation (insert_by_length x xs) (x :: xs).
Proof.
  induction xs as [|y ys IH]; simpl; [apply Permutation_refl|].
  destruct (length x <=? length y); [apply Permutation_refl|].
  apply perm_trans with (y :: x :: ys); [|apply perm_swap].
  apply perm_skip. exact IH.
Qed.

Lemma sort_by_length_perm (xs : list str) :
  Permutation (sort_by_length xs) xs.
Proof.
  induction xs as [|x xs IH]; simpl; [apply perm_nil|].
  apply perm_trans with (x :: sort_by_length xs).
  - apply insert_by_length_perm.
  - apply perm_skip. exact IH.
Qed.

Lemma insert_by_length_sorted (x : str) (xs : list str) :
  Sorted by_length xs -> Sorted by_length (insert_by_length x xs).
Proof.
  induction xs as [|y ys IH]; simpl; intros H.
  - repeat constructor.
  - destruct (Nat.leb_spec (length x) (length y)) as [L|L].
    + constructor; [exact H|]. constructor. exact L.
    + inversion H as [|? ? Hs Hd]; subst.
      constructor; [exact (IH Hs)|].
      destruct ys as [|z zs]; simpl.
      * constructor. unfold by_length. lia.
      * destruct (length x <=? length z); constructor.
        -- unfold by_length. lia.
        -- inversion Hd; subst. assumption.
Qed.

Lemma sort_by_length_sorted (xs : list str) :
  Sorted by_length (sort_by_length xs).
Proof.
  induction xs as [|x xs IH]; simpl; [constructor|].
  apply insert_by_length_sorted. exact IH.
Qed.

Lemma insert_by_length_stable (n : nat) (x : str) (xs : list str) :
  filter (fun f => length f =? n) (insert_by_length x xs)
  = filter (fun f => length f =? n) (x :: xs).
Proof.
  induction xs as [|y ys IH]; [reflexivity|].
  cbn [insert_by_length].
  destruct (Nat.leb_spec (length x) (length y)) as [L|L]; [reflexivity|].
  cbn [filter] in *. rewrite IH.
  destruct (Nat.eqb_spec (length x) n) as [Ex|Ex];
    destruct (Nat.eqb_spec (length y) n) as [Ey|Ey]; try reflexivity.
  lia.
Qed.

Lemma sort_by_length_stable (n : nat) (xs : list str) :
  filter (fun f => length f =? n) (sort_by_length xs)
  = filter (fun f => length f =? n) xs.
Proof.
  induction xs as [|x xs IH]; [reflexivity|].
  cbn [sort_by_length fold_right].
  fold (sort_by_length xs). rewrite insert_by_length_stable.
  cbn [filter]. rewrite IH. reflexivity.
Qed.

Lemma sort_by_length_nil (xs : list str) :
  sort_by_length xs = [] <-> xs = [].
Proof.
  split; [|intros ->; reflexivity].
  intros H. pose proof (sort_by_length_perm xs) as P. rewrite H in P.
  apply Permutation_nil. exact P.
Qed.

(** What the loop does with the directories entered, one after the
    other. *)
Lemma choose_directory_steps (glob : str -> list str)
    (empties : list str) (input : list str) (out : list str) :
  Forall (fun d => glob_all glob d = []) empties ->
  choose_directory glob (empties ++ input) out
  = choose_directory glob input
      (out ++ flat_map (fun _ => rejected_directory) empties).
Proof.
  revert out. induction empties as [|d empties IH]; intros out H.
  - simpl. rewrite app_nil_r. reflexivity.
  - inversion H as [|? ? Hd He]; subst.
    cbn [app choose_directory flat_map]. rewrite Hd. cbn [sort_by_length fold_right].
    rewrite (IH _ He). f_equal. unfold rejected_directory.
    rewrite <- !app_assoc. reflexivity.
Qed.

(** X11: the loop [while not files] of [main] ends at the first directory
    entered for which [glob] finds a file with one of the three extensions,
    the directories entered before it being each answered by the message
    that no valid files were found; when the input ends before such a
    directory is entered, [input] raises [EOFError]. *)
Theorem choose_directory_first_with_files (glob : str -> list str)
    (empties : list str) (out : list str) :
  Forall (fun d => glob_all glob d = []) empties ->
  (forall directory rest,
      glob_all glob directory <> [] ->
      choose_directory glob (empties ++ directory :: rest) out
      = ({| stdin := rest;
            stdout := out ++ flat_map (fun _ => rejected_directory) empties
                        ++ banner ++ [lit "Directory: "] |},
         Reply (sort_by_length (glob_all glob directory), directory)))
  /\ choose_directory glob empties out
     = ({| stdin := [];
           stdout := out ++ flat_map (fun _ => rejected_directory) empties
                       ++ banner ++ [lit "Directory: "] |},
        Abort EOFError).
Proof.
  intros H. split.
  - intros directory rest Hd. rewrite (choose_directory_steps _ _ _ H).
    cbn [choose_directory].
    destruct (sort_by_length (glob_all glob directory)) as [|f fs] eqn:E.
    + apply (proj1 (sort_by_length_nil _)) in E. contradiction.
    + rewrite <- app_assoc. reflexivity.
  - rewrite <- (app_nil_r empties) at 1.
    rewrite (choose_directory_steps _ _ _ H). cbn [choose_directory].
    rewrite <- app_assoc. reflexivity.
Qed.

(** X12: the files with which the loop [while not files] ends are the
    paths that [glob] found in the directory, none lost and none added,
    from the shortest path to the longest, paths of equal length in the
    order in which [glob] gave them (the .log files, then the .xyz files,
    then the .com files); there is at least one. *)
Theorem choose_directory_files (glob : str -> list str)
    (input out : list str) (world : console) (files : list str)
    (directory : str) :
  choose_directory glob input out = (world, Reply (files, directory)) ->
  files <> []
  /\ In directory input
  /\ Permutation files (glob_all glob directory)
  /\ Sorted by_length files
  /\ (forall n,
         filter (fun f => length f =? n) files
         = filter (fun f => length f =? n) (glob_all glob directory)).
Proof.
  revert out. induction input as [|d input IH]; intros out H.
  - discriminate H.
  - cbn [choose_directory] in H.
    destruct (sort_by_length (glob_all glob d)) as [|f fs] eqn:E.
    + destruct (IH _ H) as (H1 & H2 & H3 & H4 & H5).
      repeat split; try assumption. right. exact H2.
    + injection H as _ <- <-. rewrite <- E. repeat split.
      * rewrite E. discriminate.
      * left. reflexivity.
      * apply sort_by_length_perm.
      * apply sort_by_length_sorted.
      * intros n. apply sort_by_length_stable.
Qed.

Lemma choose_directory_first_with_files_witness :
  Forall (fun d => glob_all sample_glob d = []) [lit "tmp"]
  /\ glob_all sample_glob (lit "runs") <> []
  /\ choose_directory sample_glob ([lit "tmp"] ++ lit "runs" :: [lit "y"]) []
     = ({| stdin := [lit "y"];
           stdout := [] ++ flat_map (fun _ => rejected_directory) [lit "tmp"]
                        ++ banner ++ [lit "Directory: "] |},
        Reply ([lit "runs/co.log"; lit "runs/h2.xyz"; lit "runs/water.log"],
               lit "runs")).
Proof.
  assert (H : Forall (fun d => glob_all sample_glob d = []) [lit "tmp"])
    by (repeat constructor).
  assert (G : glob_all sample_glob (lit "runs") <> []) by discriminate.
  split; [exact H|]. split; [exact G|].
  exact (proj1 (choose_directory_first_with_files sample_glob [] H)
           (lit "runs") [lit "y"] G).
Defined.

Lemma choose_directory_files_witness :
  [lit "runs/co.log"; lit "runs/h2.xyz"; lit "runs/water.log"] <> []
  /\ In (lit "runs") [lit "tmp"; lit "runs"]
  /\ Permutation
       [lit "runs/co.log"; lit "runs/h2.xyz"; lit "runs/water.log"]
       (glob_all sample_glob (lit "runs"))
  /\ Sorted by_length
       [lit "runs/co.log"; lit "runs/h2.xyz"; lit "runs/water.log"]
  /\ (forall n,
         filter (fun f => length f =? n)
           [lit "runs/co.log"; lit "runs/h2.xyz"; lit "runs/water.log"]
         = filter (fun f => length f =? n) (glob_all sample_glob (lit "runs"))).
Proof.
  apply (@choose_directory_files sample_glob [lit "tmp"; lit "runs"] []
           (fst (choose_directory sample_glob [lit "tmp"; lit "runs"] []))).
  vm_compute. reflexivity.
Defined.

(** ** The loop over the files *)

Lemma save_all_accepted (readlines : str -> result (list str))
    (directory : str) (good rest : list str) (done : list Molecule)
    (out : list string) :
  forallb (fun f => is_ok (outcome (make_molecule_from_file readlines f directory)))
    good = true ->
  save_all readlines directory (good ++ rest) done out
  = save_all readlines directory rest
      (done ++ molecules_of readlines directory good)
      (out ++ flat_map
                (fun f => printed (make_molecule_from_file readlines f directory))
                good).
Proof.
  revert done out. induction good as [|f good IH]; intros done out H.
  - simpl. rewrite !app_nil_r. reflexivity.
  - cbn [forallb] in H. apply andb_true_iff in H. destruct H as [Hf H].
    cbn [app save_all molecules_of flat_map].
    destruct (outcome (make_molecule_from_file readlines f directory))
      as [m|e] eqn:E; [|discriminate Hf].
    rewrite (IH _ _ H). unfold molecules_of. rewrite <- !app_assoc.
    reflexivity.
Qed.

(** X13: the loop over the files hands to [save_structure] one molecule
    per file, in the order of the files, as long as
    [make_molecule_from_file] succeeds; the first file for which it raises
    ends the loop with that exception, and the files after it are neither
    read nor saved. *)
Theorem save_all_stops_at_first_failure
    (readlines : str -> result (list str)) (directory : str)
    (good : list str) :
  forallb (fun f => is_ok (outcome (make_molecule_from_file readlines f directory)))
    good = true ->
  (saved (save_all readlines directory good [] [])
   = molecules_of readlines directory good
   /\ length (saved (save_all readlines directory good [] [])) = length good
   /\ batch_outcome (save_all readlines directory good [] []) = Ok tt)
  /\ (forall bad rest e,
         outcome (make_molecule_from_file readlines bad directory) = Raise e ->
         saved (save_all readlines directory (good ++ bad :: rest) [] [])
         = molecules_of readlines directory good
         /\ batch_outcome
              (save_all readlines directory (good ++ bad :: rest) [] [])
            = Raise e).
Proof.
  intros H.
  assert (L : length (molecules_of readlines directory good) = length good).
  { clear - H. induction good as [|f good IH]; [reflexivity|].
    cbn [forallb] in H. apply andb_true_iff in H. destruct H as [Hf H].
    cbn [molecules_of flat_map].
    destruct (outcome (make_molecule_from_file readlines f directory));
      [|discriminate Hf].
    cbn [app length]. f_equal. exact (IH H). }
  split.
  - rewrite <- (app_nil_r good) at 1 3 5.
    rewrite (save_all_accepted _ _ _ [] [] [] H). cbn [save_all saved batch_outcome app].
    repeat split. exact L.
  - intros bad rest e Hbad.
    rewrite (save_all_accepted _ _ _ (bad :: rest) [] [] H).
    cbn [save_all]. rewrite Hbad. split; reflexivity.
Qed.

Lemma save_all_stops_at_first_failure_witness :
  saved (save_all sample_readlines (lit "runs")
           ([lit "runs/h2.xyz"] ++ lit "runs/co.log" :: [lit "runs/water.log"])
           [] [])
  = molecules_of sample_readlines (lit "runs") [lit "runs/h2.xyz"]
  /\ batch_outcome
       (save_all sample_readlines (lit "runs")
          ([lit "runs/h2.xyz"] ++ lit "runs/co.log" :: [lit "runs/water.log"])
          [] [])
     = Raise IndexError.
Proof.
  apply (proj2 (@save_all_stops_at_first_failure sample_readlines (lit "runs")
                  [lit "runs/h2.xyz"] ltac:(vm_compute; reflexivity))).
  vm_compute. reflexivity.
Defined.

(** ** [yes_no] *)

Lemma yes_no_loop_steps (prompt : str) (junk input out : list str) :
  forallb (fun x => negb (mem x (yes ++ no))) junk = true ->
  yes_no_loop prompt (junk ++ input) out
  = yes_no_loop prompt input
      (out ++ repeat (prompt ++ lit " (y/n): ") (length junk)).
Proof.
  revert out. induction junk as [|x junk IH]; intros out H.
  - simpl. rewrite app_nil_r. reflexivity.
  - cbn [forallb] in H. apply andb_true_iff in H. destruct H as [Hx H].
    apply negb_true_iff in Hx.
    cbn [app yes_no_loop length repeat]. rewrite Hx, (IH _ H).
    f_equal. rewrite <- app_assoc. reflexivity.
Qed.

(** X14: [yes_no] asks until an answer is one of "y", "Y", "Yes", "1",
    "N", "n", "No", "0", writing its prompt once for each answer read, and
    returns whether that answer is one of the first four; any other answer,
    "yes" or "no" among them, is asked again.  When the input ends before
    such an answer, [input] raises [EOFError]. *)
Theorem yes_no_first_valid_answer (prompt : str) (world : console)
    (junk : list str) :
  forallb (fun x => negb (mem x (yes ++ no))) junk = true ->
  (forall answer rest,
      stdin world = junk ++ answer :: rest ->
      mem answer (yes ++ no) = true ->
      yes_no prompt world
      = ({| stdin := rest;
            stdout := stdout world
                        ++ repeat (prompt ++ lit " (y/n): ") (length junk + 1) |},
         Reply (mem answer [lit "y"; lit "Y"; lit "Yes"; lit "1"])))
  /\ (stdin world = junk ->
      yes_no prompt world
      = ({| stdin := [];
            stdout := stdout world
                        ++ repeat (prompt ++ lit " (y/n): ") (length junk + 1) |},
         Abort EOFError)).
Proof.
  intros H.
  assert (R : forall n, repeat (prompt ++ lit " (y/n): ") (n + 1)
                        = repeat (prompt ++ lit " (y/n): ") n
                            ++ [prompt ++ lit " (y/n): "]).
  { intros n. rewrite repeat_app. reflexivity. }
  split.
  - intros answer rest E V. unfold yes_no.
    rewrite E, (yes_no_loop_steps _ _ _ _ H). cbn [yes_no_loop].
    rewrite V, R, <- app_assoc. reflexivity.
  - intros E. unfold yes_no. rewrite E.
    rewrite <- (app_nil_r junk) at 1.
    rewrite (yes_no_loop_steps _ _ _ _ H). cbn [yes_no_loop].
    rewrite R, <- app_assoc. reflexivity.
Qed.

Lemma yes_no_first_valid_answer_witness :
  forallb (fun x => negb (mem x (yes ++ no))) [lit "yes"; lit ""] = true
  /\ yes_no (lit "Show an interactive sample")
       {| stdin := [lit "yes"; lit ""; lit "Y"; lit "3.5"]; stdout := [] |}
     = ({| stdin := [lit "3.5"];
           stdout := [] ++ repeat (lit "Show an interactive sample (y/n): ") 3 |},
        Reply true).
Proof.
  split; [reflexivity|].
  exact (proj1 (@yes_no_first_valid_answer (lit "Show an interactive sample")
                  {| stdin := [lit "yes"; lit ""; lit "Y"; lit "3.5"];
                     stdout := [] |}
                  [lit "yes"; lit ""] eq_refl)
           (lit "Y") [lit "3.5"] eq_refl eq_refl).
Defined.

(** ** [make_choice_list] *)

Lemma getitem_int_in_range {A : Type} (xs : list A) (selection : Z) :
  (1 <= selection <= Z.of_nat (length xs))%Z ->
  exists x,
    getitem_int xs (selection - 1) = Ok x
    /\ nth_error xs (Z.to_nat (selection - 1)) = Some x.
Proof.
  intros H. unfold getitem_int, Py.getitem.
  destruct (Z.ltb_spec (selection - 1) 0) as [N|N]; [lia|].
  destruct (nth_error xs (Z.to_nat (selection - 1))) as [x|] eqn:E.
  - exists x. split; reflexivity.
  - apply nth_error_None in E. lia.
Qed.

Lemma accepted_range (limit : option nat) (choices : list str)
    (answer : str) (selection : Z) :
  accepted limit choices answer = Some selection ->
  int limit answer = Ok selection
  /\ (1 <= selection <= Z.of_nat (length choices))%Z.
Proof.
  unfold accepted. destruct (int limit answer) as [v|e]; [|discriminate].
  destruct ((1 <=? v)%Z && (v <=? Z.of_nat (length choices))%Z) eqn:R;
    [|discriminate].
  intros H. injection H as <-. apply andb_true_iff in R.
  destruct R as [R1 R2]. apply Z.leb_le in R1, R2. split; [reflexivity | lia].
Qed.

Lemma select_loop_rejected (limit : option nat) (choices : list str)
    (answer : str) (rest out : list str) :
  accepted limit choices answer = None ->
  select_loop limit choices (answer :: rest) out
  = select_loop limit choices rest
      (out ++ [select_prompt; rejection limit answer]).
Proof.
  unfold accepted, rejection. cbn [select_loop].
  destruct (int limit answer) as [v|e].
  - destruct ((1 <=? v)%Z && (v <=? Z.of_nat (length choices))%Z);
      [discriminate|].
    intros _. rewrite <- app_assoc. reflexivity.
  - intros _. rewrite <- app_assoc. reflexivity.
Qed.

Lemma select_loop_steps (limit : option nat) (choices : list str)
    (junk input out : list str) :
  Forall (fun x => accepted limit choices x = None) junk ->
  select_loop limit choices (junk ++ input) out
  = select_loop limit choices input
      (out ++ flat_map (fun x => [select_prompt; rejection limit x]) junk).
Proof.
  revert out. induction junk as [|x junk IH]; intros out H.
  - simpl. rewrite app_nil_r. reflexivity.
  - inversion H as [|? ? Hx Hj]; subst.
    cbn [app flat_map]. rewrite (@select_loop_rejected _ _ _ _ _ Hx), (IH _ Hj).
    rewrite <- app_assoc. reflexivity.
Qed.

Lemma select_loop_safe (limit : option nat) (choices : list str)
    (input out : list str) :
  match snd (select_loop limit choices input out) with
  | Reply (selection, chosen) =>
      (1 <= selection <= Z.of_nat (length choices))%Z
      /\ nth_error choices (Z.to_nat (selection - 1)) = Some chosen
  | Abort e => e = EOFError
  end.
Proof.
  revert out. induction input as [|answer rest IH]; intros out.
  - reflexivity.
  - destruct (accepted limit choices answer) as [selection|] eqn:A.
    + destruct (@accepted_range _ _ _ _ A) as [I R].
      destruct (@getitem_int_in_range _ choices _ R) as (x & G & N).
      assert (B : (1 <=? selection)%Z
                  && (selection <=? Z.of_nat (length choices))%Z = true).
      { apply andb_true_iff. split; apply Z.leb_le; lia. }
      cbn [select_loop]. rewrite I, B, G. cbn [snd]. split; assumption.
    + rewrite (@select_loop_rejected _ _ _ _ _ A). apply IH.
Qed.

(** X15: whatever is typed, [make_choice_list] never raises [IndexError]
    (nor any exception but the [EOFError] of [input]): when it returns, the
    item is one of the choices, or, with [ret_num], the index lies between 0
    and the number of choices minus one; with an empty list of choices it
    never returns. *)
Theorem make_choice_list_safe (limit : option nat) (choices : list str)
    (prompt : str) (ret_num : bool) (world : console) :
  match snd (make_choice_list limit choices prompt ret_num world) with
  | Reply (inl chosen) => ret_num = false /\ In chosen choices
  | Reply (inr index) =>
      ret_num = true /\ (0 <= index < Z.of_nat (length choices))%Z
  | Abort e => e = EOFError
  end
  /\ snd (make_choice_list limit [] prompt ret_num world) = Abort EOFError.
Proof.
  assert (S : forall cs,
    match snd (make_choice_list limit cs prompt ret_num world) with
    | Reply (inl chosen) => ret_num = false /\ In chosen cs
    | Reply (inr index) =>
        ret_num = true /\ (0 <= index < Z.of_nat (length cs))%Z
    | Abort e => e = EOFError
    end).
  { intros cs. unfold make_choice_list.
    pose proof (select_loop_safe limit cs (stdin world)
                  (stdout world ++ [prompt ++ [Py.newline]] ++ menu 0 cs)) as H.
    destruct (select_loop limit cs (stdin world) _) as [w [[selection chosen]|e]];
      cbn [snd] in *; [|exact H].
    destruct H as [R N]. destruct ret_num.
    - split; [reflexivity | lia].
    - split; [reflexivity | exact (nth_error_In _ _ N)]. }
  split; [apply S|].
  specialize (S []).
  destruct (snd (make_choice_list limit [] prompt ret_num world))
    as [[chosen|index]|e].
  - destruct S as [_ []].
  - destruct S as [_ S]. simpl in S. lia.
  - rewrite S. reflexivity.
Qed.

(** X16: [make_choice_list] prints the prompt and the numbered choices,
    then asks until an answer is an integer from 1 to the number of choices,
    answering each other answer by one message (not an integer, or not an
    option); it returns the choice of that number, or the number minus one
    with [ret_num], and leaves the rest of the input unread. *)
Theorem make_choice_list_first_accepted (limit : option nat)
    (choices : list str) (prompt : str) (ret_num : bool) (world : console)
    (junk : list str) (answer : str) (rest : list str) (selection : Z) :
  stdin world = junk ++ answer :: rest ->
  Forall (fun x => accepted limit choices x = None) junk ->
  accepted limit choices answer = Some selection ->
  exists chosen,
    nth_error choices (Z.to_nat (selection - 1)) = Some chosen
    /\ make_choice_list limit choices prompt ret_num world
       = ({| stdin := rest;
             stdout :=
               stdout world ++ [prompt ++ [Py.newline]] ++ menu 0 choices
                 ++ flat_map (fun x => [select_prompt; rejection limit x]) junk
                 ++ [select_prompt] |},
          Reply (if ret_num then inr (selection - 1)%Z else inl chosen)).
Proof.
  intros E J A.
  destruct (@accepted_range _ _ _ _ A) as [I R].
  destruct (@getitem_int_in_range _ choices _ R) as (x & G & N).
  assert (B : (1 <=? selection)%Z
              && (selection <=? Z.of_nat (length choices))%Z = true).
  { apply andb_true_iff. split; apply Z.leb_le; lia. }
  exists x. split; [exact N|].
  unfold make_choice_list.
  rewrite E, (@select_loop_steps _ _ _ _ _ J). cbn [select_loop].
  rewrite I, B, G, <- !app_assoc. reflexivity.
Qed.

Lemma make_choice_list_first_accepted_witness :
  (Forall (fun x => accepted (Some 4300) [lit "log"; lit "xyz"; lit "com"] x = None)
     [lit "two"; lit "4"; lit "0"]
   /\ accepted (Some 4300) [lit "log"; lit "xyz"; lit "com"] (lit " 2 ")
      = Some 2%Z)
  /\ exists chosen,
       nth_error [lit "log"; lit "xyz"; lit "com"] (Z.to_nat (2 - 1))
       = Some chosen
       /\ make_choice_list (Some 4300) [lit "log"; lit "xyz"; lit "com"]
            (lit "Selections: ") false
            {| stdin := [lit "two"; lit "4"; lit "0"] ++ lit " 2 " :: [lit "1"];
               stdout := [] |}
          = ({| stdin := [lit "1"];
                stdout :=
                  [] ++ [lit "Selections: " ++ [Py.newline]]
                    ++ menu 0 [lit "log"; lit "xyz"; lit "com"]
                    ++ flat_map
                         (fun x => [select_prompt; rejection (Some 4300) x])
                         [lit "two"; lit "4"; lit "0"]
                    ++ [select_prompt] |},
             Reply (inl chosen)).
Proof.
  assert (J : Forall
                (fun x => accepted (Some 4300) [lit "log"; lit "xyz"; lit "com"] x
                          = None)
                [lit "two"; lit "4"; lit "0"])
    by (repeat constructor).
  assert (A : accepted (Some 4300) [lit "log"; lit "xyz"; lit "com"] (lit " 2 ")
              = Some 2%Z) by reflexivity.
  split; [split; [exact J | exact A]|].
  exact (@make_choice_list_first_accepted (Some 4300)
           [lit "log"; lit "xyz"; lit "com"] (lit "Selections: ") false
           {| stdin := [lit "two"; lit "4"; lit "0"] ++ lit " 2 " :: [lit "1"];
              stdout := [] |}
           [lit "two"; lit "4"; lit "0"] (lit " 2 ") [lit "1"] 2%Z
           eq_refl J A).
Defined.
